(** * graph.js: windowing and presentation state of the weather chart

    A shallow embedding of [templates/resources/scripts/graph.js].  The script
    keeps one global sample count ([array_length]), the full fetched series
    ([temp_parsedResponse]) and the current chart ([graph]); the buttons of
    the page call [updateGraph] and [customTimestamp], and [loadData] runs
    once when the document is ready.

    The file has three layers:
    - [JS]: the ECMAScript built-ins the script calls (Number arithmetic on
      IEEE 754 binary64, [Array.prototype.slice], [parseFloat], ...);
    - the script itself, as state-passing functions over the globals, with
      the effects on the page recorded in an event log;
    - the properties of the windowing logic.

    What is modelled and what is not:
    - Numbers are binary64 values with their rounding; strings are sequences
      of code units below 256.
    - The parsed response is an array of samples with a [time] string and
      four numeric metrics.
    - [Date.parse] is a parameter of the script.
    - The chart library and the DOM are effects: clearing the chart,
      building it from its series, writing a summary field, rendering,
      [alert].  The chart library is a parameter of the script: its
      widgets (the calls of [addContents]) and [graph.render()] may
      complete or throw, as the library decides for the chart at hand; the
      constructor of the chart, which only takes the series in, completes.
      The text formatting of the summary fields and of the hover detail
      (rounding, unit symbols of [unit_dictionary]) and the logging of
      data to the console are left out. *)

From Stdlib Require Import ZArith List String Ascii Bool Lia.
From Stdlib Require Import SpecFloat.
Import ListNotations.

Open Scope string_scope.
Open Scope Z_scope.

(** ** ECMAScript built-ins *)

Module JS.

(** *** Numbers

    A JavaScript Number is an IEEE 754 binary64 value: 53 bits of precision,
    infinities at exponent 1024, and one NaN. *)

Definition prec : Z := 53.
Definition emax : Z := 1024.

Definition number : Type := spec_float.

Definition NaN : number := S754_nan.

(** The Number value of a mathematical integer (round to nearest, ties to
    even; exact below [2^53]). *)
Definition of_Z (z : Z) : number := binary_normalize prec emax z 0 false.

Definition mul (x y : number) : number := SFmul prec emax x y.
Definition sub (x y : number) : number := SFsub prec emax x y.

(** [x <= y], [x >= y] and [x < y]: false as soon as an operand is NaN. *)
Definition le (x y : number) : bool := SFleb x y.
Definition ge (x y : number) : bool := SFleb y x.
Definition lt (x y : number) : bool := SFltb x y.

Definition Number_isNaN (x : number) : bool :=
  match x with
  | S754_nan => true
  | _ => false
  end.

(** Integers extended with the two infinities, the range of
    [ToIntegerOrInfinity]. *)
Inductive ExtInt : Type :=
  | NegInf
  | Fin (z : Z)
  | PosInf.

(** [ToIntegerOrInfinity]: NaN and the zeros go to 0, the infinities stay,
    a finite value is truncated towards zero. *)
Definition ToIntegerOrInfinity (x : number) : ExtInt :=
  match x with
  | S754_nan => Fin 0
  | S754_zero _ => Fin 0
  | S754_infinity true => NegInf
  | S754_infinity false => PosInf
  | S754_finite s m e => Fin (cond_Zopp s (Z.shiftl (Zpos m) e))
  end.

(** [Math.floor]. *)
Definition Math_floor (x : number) : number :=
  match x with
  | S754_finite s m e =>
      if 0 <=? e then x else of_Z (Z.shiftl (cond_Zopp s (Zpos m)) e)
  | _ => x
  end.

(** *** Arrays *)

(** Every array has fewer than [2^32] elements. *)
Definition array_like {A : Type} (O : list A) : Prop :=
  Z.of_nat (List.length O) < 2 ^ 32.

(** The length of an array, as a Number. *)
Definition length_of {A : Type} (O : list A) : number :=
  of_Z (Z.of_nat (List.length O)).

(** The clamping of a relative index done by [Array.prototype.slice]:
    a negative index counts from the end of the array. *)
Definition relative_index (len : Z) (r : ExtInt) : Z :=
  match r with
  | NegInf => 0
  | Fin z => if z <? 0 then Z.max (len + z) 0 else Z.min z len
  | PosInf => len
  end.

(** [O.slice(start, end)]. *)
Definition Array_slice {A : Type} (O : list A) (start end_ : number) : list A :=
  let len := Z.of_nat (List.length O) in
  let k := relative_index len (ToIntegerOrInfinity start) in
  let final := relative_index len (ToIntegerOrInfinity end_) in
  let count := Z.max (final - k) 0 in
  firstn (Z.to_nat count) (skipn (Z.to_nat k) O).

(** [O.map(f)]: a new array, the callback applied to the elements in
    ascending index order. *)
Definition Array_map {A B : Type} (f : A -> B) (O : list A) : list B :=
  map f O.

(** [O[i]] for a Number [i]: the element when [i] is an integer index inside
    the array, [undefined] (here [None]) otherwise. *)
Definition Array_get {A : Type} (O : list A) (i : number) : option A :=
  match i with
  | S754_zero _ => nth_error O 0
  | S754_finite false m e =>
      let z := Z.shiftl (Zpos m) e in
      if Z.shiftl z (- e) =? Zpos m then nth_error O (Z.to_nat z) else None
  | _ => None
  end.

(** *** parseFloat *)

Definition is_digit (c : ascii) : bool :=
  let n := nat_of_ascii c in
  (Nat.leb 48 n && Nat.leb n 57)%bool.

Definition digit_value (c : ascii) : Z := Z.of_nat (nat_of_ascii c) - 48.

(** White space and line terminators among the code units below 256. *)
Definition is_white_space (c : ascii) : bool :=
  let n := nat_of_ascii c in
  (Nat.leb 9 n && Nat.leb n 13 || Nat.eqb n 32 || Nat.eqb n 160)%bool.

Fixpoint TrimStart (s : string) : string :=
  match s with
  | String c s' => if is_white_space c then TrimStart s' else s
  | EmptyString => EmptyString
  end.

(** The longest run of decimal digits at the head of [s], and what follows. *)
Fixpoint digits_prefix (s : string) : string * string :=
  match s with
  | String c s' =>
      if is_digit c
      then let (d, r) := digits_prefix s' in (String c d, r)
      else (EmptyString, s)
  | EmptyString => (EmptyString, EmptyString)
  end.

(** The mathematical value of a run of decimal digits. *)
Fixpoint MV_digits_from (acc : Z) (d : string) : Z :=
  match d with
  | String c d' => MV_digits_from (10 * acc + digit_value c) d'
  | EmptyString => acc
  end.

Definition MV_digits (d : string) : Z := MV_digits_from 0 d.

(** A parsed [StrDecimalLiteral]. *)
Inductive StrLiteral : Type :=
  | LitInfinity (neg : bool)
  | LitDecimal (neg : bool) (int_part frac_part : string) (exponent : Z).

Definition is_exponent_indicator (c : ascii) : bool :=
  (Ascii.eqb c "e" || Ascii.eqb c "E")%bool.

Fixpoint strip_prefix (p s : string) : option string :=
  match p with
  | EmptyString => Some s
  | String a p' =>
      match s with
      | String b s' => if Ascii.eqb a b then strip_prefix p' s' else None
      | EmptyString => None
      end
  end.

(** An optional sign at the head of [s] ([true] for minus), and what
    follows. *)
Definition scan_sign (s : string) : bool * string :=
  match s with
  | String c t =>
      if Ascii.eqb c "+" then (false, t)
      else if Ascii.eqb c "-" then (true, t)
      else (false, s)
  | EmptyString => (false, s)
  end.

(** [ExponentPart], when present in full: the indicator, an optional sign
    and at least one digit. *)
Definition scan_exponent (s : string) : Z * string :=
  match s with
  | String c s1 =>
      if is_exponent_indicator c then
        let (sg, s2) := scan_sign s1 in
        let (d, r) := digits_prefix s2 in
        match d with
        | EmptyString => (0, s)
        | _ => (cond_Zopp sg (MV_digits d), r)
        end
      else (0, s)
  | EmptyString => (0, s)
  end.

(** The longest prefix of [s] that is a [StrUnsignedDecimalLiteral], and
    what follows it: [Infinity], or digits with an optional fraction (at
    least one digit before or after the dot) and an optional exponent. *)
Definition scan_unsigned (neg : bool) (s : string) : option (StrLiteral * string) :=
  match strip_prefix "Infinity" s with
  | Some r => Some (LitInfinity neg, r)
  | None =>
      let (ip, r1) := digits_prefix s in
      let (fp, r3) :=
        match strip_prefix "." r1 with
        | Some r2 => digits_prefix r2
        | None => (EmptyString, r1)
        end in
      match ip, fp with
      | EmptyString, EmptyString => None
      | _, _ =>
          let (ex, r4) := scan_exponent r3 in
          Some (LitDecimal neg ip fp ex, r4)
      end
  end.

(** The longest prefix of [s] that is a [StrDecimalLiteral]. *)
Definition scan_literal (s : string) : option (StrLiteral * string) :=
  let (neg, t) := scan_sign s in scan_unsigned neg t.

(** The Number value of a literal: its mathematical value
    [digits * 10^(exponent - |frac_part|)] rounded to nearest, ties to even. *)
Definition StringNumericValue (l : StrLiteral) : number :=
  match l with
  | LitInfinity neg => S754_infinity neg
  | LitDecimal neg ip fp ex =>
      let e10 := ex - Z.of_nat (String.length fp) in
      match MV_digits (ip ++ fp)%string with
      | Zpos p =>
          if 0 <=? e10
          then binary_round prec emax neg (p * Z.to_pos (10 ^ e10)) 0
          else SFdiv prec emax (S754_finite neg p 0)
                 (S754_finite false (Z.to_pos (10 ^ (- e10))) 0)
      | _ => S754_zero neg
      end
  end.

(** [ToString] of the result of [prompt]: a string, or [null] on cancel. *)
Definition ToString (v : option string) : string :=
  match v with
  | Some s => s
  | None => "null"
  end.

Definition parseFloat (inputString : string) : number :=
  match scan_literal (TrimStart inputString) with
  | Some (l, _) => StringNumericValue l
  | None => NaN
  end.

End JS.

Import JS.

(** ** The script *)

(** *** Data *)

(** A JavaScript value, as far as the script meets them. *)
Inductive value : Type :=
  | Undefined
  | Num (n : number)
  | Str (s : string).

(** One element of the parsed response: a sample of the four metrics. *)
Record Sample : Type := {
  time : string;
  humidity : number;
  lux : number;
  temperature : number;
  pressure : number
}.

(** [obj[key]]. *)
Definition field (obj : Sample) (key : string) : value :=
  if (key =? "time")%string then Str (time obj)
  else if (key =? "humidity")%string then Num (humidity obj)
  else if (key =? "lux")%string then Num (lux obj)
  else if (key =? "temperature")%string then Num (temperature obj)
  else if (key =? "pressure")%string then Num (pressure obj)
  else Undefined.

(** A point of a plotted series. *)
Record Point : Type := { x : number; y : value }.

(** One entry of the [series] option of a chart. *)
Record Series : Type := { name : string; data : list Point }.

Definition Graph : Type := list Series.

Inductive Exn : Type :=
  | TypeError.

(** What the script does to the page. *)
Inductive Event : Type :=
  | Alert (msg : string)
  | ClearGraph
  | Summary (element : string) (latest : value)
  | Render (g : Graph)
  | ConsoleLog (e : Exn).

(** The [options] object of the page, set before the script runs. *)
Record Options : Type := {
  timeframe : string;
  temperature_unit : string;
  pressure_unit : string
}.

(** The globals of the script, and the log of its effects on the page.
    [temp_unpackData] records whether the global of that name has been
    assigned; [hours] and [parsedResponse] are the implicit globals of
    [customTimestamp] and [updateGraph]. *)
Record State : Type := {
  array_length : number;
  graph : option Graph;
  temp_parsedResponse : option (list Sample);
  temp_unpackData : bool;
  parsedResponse : option (list Sample);
  hours : value;
  page : list Event
}.

Definition set_array_length (n : number) (st : State) : State :=
  {| array_length := n; graph := graph st;
     temp_parsedResponse := temp_parsedResponse st;
     temp_unpackData := temp_unpackData st;
     parsedResponse := parsedResponse st; hours := hours st;
     page := page st |}.

Definition set_graph (g : Graph) (st : State) : State :=
  {| array_length := array_length st; graph := Some g;
     temp_parsedResponse := temp_parsedResponse st;
     temp_unpackData := temp_unpackData st;
     parsedResponse := parsedResponse st; hours := hours st;
     page := page st |}.

Definition set_temp_parsedResponse (a : list Sample) (st : State) : State :=
  {| array_length := array_length st; graph := graph st;
     temp_parsedResponse := Some a;
     temp_unpackData := temp_unpackData st;
     parsedResponse := parsedResponse st; hours := hours st;
     page := page st |}.

Definition set_temp_unpackData (st : State) : State :=
  {| array_length := array_length st; graph := graph st;
     temp_parsedResponse := temp_parsedResponse st;
     temp_unpackData := true;
     parsedResponse := parsedResponse st; hours := hours st;
     page := page st |}.

Definition set_parsedResponse (a : list Sample) (st : State) : State :=
  {| array_length := array_length st; graph := graph st;
     temp_parsedResponse := temp_parsedResponse st;
     temp_unpackData := temp_unpackData st;
     parsedResponse := Some a; hours := hours st;
     page := page st |}.

Definition set_hours (h : number) (st : State) : State :=
  {| array_length := array_length st; graph := graph st;
     temp_parsedResponse := temp_parsedResponse st;
     temp_unpackData := temp_unpackData st;
     parsedResponse := parsedResponse st; hours := Num h;
     page := page st |}.

Definition log_event (ev : Event) (st : State) : State :=
  {| array_length := array_length st; graph := graph st;
     temp_parsedResponse := temp_parsedResponse st;
     temp_unpackData := temp_unpackData st;
     parsedResponse := parsedResponse st; hours := hours st;
     page := page st ++ [ev] |}.

(** *** Statements: state passing with exceptions *)

Inductive Completion (A : Type) : Type :=
  | Normal (a : A)
  | Throw (e : Exn).

Arguments Normal {A} a.
Arguments Throw {A} e.

Definition M (A : Type) : Type := State -> Completion A * State.

Definition ret {A : Type} (a : A) : M A := fun st => (Normal a, st).

Definition throw {A : Type} (e : Exn) : M A := fun st => (Throw e, st).

Definition bind {A B : Type} (m : M A) (k : A -> M B) : M B :=
  fun st =>
    match m st with
    | (Normal a, st') => k a st'
    | (Throw e, st') => (Throw e, st')
    end.

Definition get : M State := fun st => (Normal st, st).

Definition modify (f : State -> State) : M unit := fun st => (Normal tt, f st).

Definition emit (ev : Event) : M unit := modify (log_event ev).

(** [m.catch(handler)]. *)
Definition catch (m : M unit) (handler : Exn -> M unit) : M unit :=
  fun st =>
    match m st with
    | (Normal a, st') => (Normal a, st')
    | (Throw e, st') => handler e st'
    end.

(** The outcome of a call that leaves the globals alone. *)
Definition call {A : Type} (c : Completion A) : M A := fun st => (c, st).

(** The chart library, as far as the script depends on it: whether, for a
    chart built from given series, the widgets that [addContents] sets up
    (lines 108-178: configure, hover detail, axes, legend, toggle,
    highlight, preview slider) and [graph.render()] complete or throw. *)
Record ChartLibrary : Type := {
  widgets : Graph -> Completion unit;
  rendering : Graph -> Completion unit
}.

Declare Scope js_scope.
Delimit Scope js_scope with js.
Notation "v <- m ;; k" := (bind m (fun v => k))
  (at level 61, m at next level, right associativity) : js_scope.
Notation "m ;; k" := (bind m (fun _ => k))
  (at level 61, right associativity) : js_scope.
Open Scope js_scope.

(** *** Functions of the script *)

Section Script.

(** [Date.parse], which turns the [time] field of a sample into the
    abscissa of its points. *)
Variable Date_parse : string -> number.

(** The chart library of the page. *)
Variable Rickshaw : ChartLibrary.

(** Lines 19-25: the sample count the script starts with. *)
Definition initial_array_length (options : Options) : number :=
  let array_length := of_Z 12961 in
  if (timeframe options =? "Week")%string then of_Z 1009
  else if (timeframe options =? "Month")%string then of_Z 4321
  else array_length.

(** The globals when the script has been loaded and nothing fetched yet. *)
Definition script_start (options : Options) : State :=
  {| array_length := initial_array_length options;
     graph := None;
     temp_parsedResponse := None;
     temp_unpackData := false;
     parsedResponse := None;
     hours := Undefined;
     page := [] |}.

(** [unpackData(array, key)], line 59. *)
Definition unpackData (array : list Sample) (key : string) : list Point :=
  Array_map (fun obj => {| x := Date_parse (time obj); y := field obj key |})
    array.

(** [a.slice(a.length - array_length, a.length)], lines 66 and 213. *)
Definition slice_window (a : list Sample) (array_length : number) : list Sample :=
  Array_slice a (sub (length_of a) array_length) (length_of a).

(** The [series] given to the chart, lines 74-95 and 221-242. *)
Definition chart_series (parsedResponse : list Sample) : Graph :=
  [ {| name := "Humidity"; data := unpackData parsedResponse "humidity" |};
    {| name := "Lux"; data := unpackData parsedResponse "lux" |};
    {| name := "Temperature"; data := unpackData parsedResponse "temperature" |};
    {| name := "Pressure"; data := unpackData parsedResponse "pressure" |} ].

(** [temp_unpackData(a, key)[a.length-1].y], lines 181-184: reading [.y] of
    [undefined] throws. *)
Definition latest_value (a : list Sample) (key : string) : Completion value :=
  match Array_get (unpackData a key) (sub (length_of a) (of_Z 1)) with
  | Some p => Normal (y p)
  | None => Throw TypeError
  end.

Definition latest (key : string) : M value :=
  fun st =>
    if temp_unpackData st then
      match temp_parsedResponse st with
      | Some a => (latest_value a key, st)
      | None => (Throw TypeError, st)
      end
    else (Throw TypeError, st).

(** [addContents()]: the widgets of the chart are set up by the chart
    library; then the four summary fields receive the latest values
    (recorded before their formatting as text). *)
Definition addContents : M unit :=
  st <- get ;;
  match graph st with
  | Some g => call (widgets Rickshaw g)
  | None => throw TypeError
  end ;;
  t <- latest "temperature" ;;
  emit (Summary "temperatureValue" t) ;;
  h <- latest "humidity" ;;
  emit (Summary "humidityValue" h) ;;
  p <- latest "pressure" ;;
  emit (Summary "pressureValue" p) ;;
  l <- latest "lux" ;;
  emit (Summary "luminosityValue" l).

(** [graph.render()]: the event [Render] records a render that the chart
    library has completed. *)
Definition render : M unit :=
  st <- get ;;
  match graph st with
  | Some g => call (rendering Rickshaw g) ;; emit (Render g)
  | None => throw TypeError
  end.

(** [clearGraph()]: the legend, the axis, the slider and the chart element
    are emptied. *)
Definition clearGraph : M unit := emit ClearGraph.

(** The [switch] of [updateGraph], lines 194-210. *)
Definition switch_timestamp (timestamp : string) (array_length : number) : number :=
  if (timestamp =? "QuarterYear")%string then of_Z 12961
  else if (timestamp =? "Month")%string then of_Z 4321
  else if (timestamp =? "Week")%string then of_Z 1009
  else if (timestamp =? "Day")%string then of_Z 145
  else if (timestamp =? "last")%string then array_length
  else array_length.

(** [updateGraph(timestamp)]. *)
Definition updateGraph (timestamp : string) : M unit :=
  modify (fun st =>
    set_array_length (switch_timestamp timestamp (array_length st)) st) ;;
  clearGraph ;;
  st <- get ;;
  match temp_parsedResponse st with
  | None => throw TypeError
  | Some a =>
      let parsedResponse := slice_window a (array_length st) in
      modify (set_parsedResponse parsedResponse) ;;
      (if temp_unpackData st then ret tt else throw TypeError) ;;
      modify (set_graph (chart_series parsedResponse)) ;;
      addContents ;;
      render
  end.

(** [customTimestamp()], given the answer [person] of the prompt ([None]
    when the prompt is cancelled). *)
Definition customTimestamp (person : option string) : M unit :=
  let hours := parseFloat (ToString person) in
  modify (set_hours hours) ;;
  if Number_isNaN hours then
    match person with
    | None => ret tt
    | Some s =>
        if (s =? "")%string then ret tt else emit (Alert "Only use numbers!")
    end
  else if (le hours (of_Z 0) || ge hours (of_Z 2160))%bool then
    emit (Alert "Hours can't be less or equal to 0 or higher than 2160!")
  else
    modify (set_array_length (mul hours (of_Z 6))) ;;
    updateGraph "last".

(** The last [then] of [loadData], lines 58-100. *)
Definition loadData_then (parsedResponse : list Sample) : M unit :=
  modify (set_temp_parsedResponse parsedResponse) ;;
  st <- get ;;
  let parsedResponse := slice_window parsedResponse (array_length st) in
  modify set_temp_unpackData ;;
  modify (set_graph (chart_series parsedResponse)) ;;
  addContents ;;
  render.

(** [loadData()], given the outcome of fetching and parsing the response;
    whatever is thrown ends in the [catch] of line 101. *)
Definition loadData (fetched : Completion (list Sample)) : M unit :=
  catch
    match fetched with
    | Normal parsedResponse => loadData_then parsedResponse
    | Throw e => throw e
    end
    (fun error => emit (ConsoleLog error)).

End Script.

(** ** Vocabulary of the properties *)

(** [m] leaves the sample count as it finds it. *)
Definition keeps_window {A : Type} (m : M A) : Prop :=
  forall st, array_length (snd (m st)) = array_length st.

(** The window state is the same in [st'] as in [st]: the sample count, the
    store, the chart and the page; only the scratch global [hours] may
    differ. *)
Definition same_window (st st' : State) : Prop :=
  array_length st' = array_length st /\
  temp_parsedResponse st' = temp_parsedResponse st /\
  graph st' = graph st /\
  page st' = page st.

(** The four preset names of the buttons. *)
Definition is_preset (name : string) : bool :=
  ((name =? "QuarterYear") || (name =? "Month") ||
   (name =? "Week") || (name =? "Day"))%string.

Definition log_events (evs : list Event) (st : State) : State :=
  fold_left (fun s ev => log_event ev s) evs st.

(** What [addContents] writes into the four summary fields when [obj] is
    the last sample of the store. *)
Definition summary_events (obj : Sample) : list Event :=
  [ Summary "temperatureValue" (field obj "temperature");
    Summary "humidityValue" (field obj "humidity");
    Summary "pressureValue" (field obj "pressure");
    Summary "luminosityValue" (field obj "lux") ].

(** What follows the construction of the chart [g] on a store whose last
    sample is [obj]: the widgets, the summary fields, the render.  The
    outcome and the events on the page are the chart library's to decide:
    an exception of the widgets ends it before the summary, an exception
    of the render after it. *)
Definition chart_outcome (Rickshaw : ChartLibrary) (g : Graph) (obj : Sample)
    : Completion unit * list Event :=
  match widgets Rickshaw g with
  | Throw e => (Throw e, [])
  | Normal _ =>
      match rendering Rickshaw g with
      | Throw e => (Throw e, summary_events obj)
      | Normal _ => (Normal tt, (summary_events obj ++ [Render g])%list)
      end
  end.

(** The input is, after leading white space, a numeric literal and nothing
    else. *)
Definition complete_literal (s : string) : bool :=
  match scan_literal (TrimStart s) with
  | Some (_, EmptyString) => true
  | _ => false
  end.

(** The text starts as an unsigned numeric literal does: with a digit, with
    a dot and a digit, or with [Infinity]. *)
Definition numeric_head (s : string) : bool :=
  match s with
  | String c r =>
      (is_digit c
       || (Ascii.eqb c "."
           && match r with
              | String d _ => is_digit d
              | EmptyString => false
              end)
       || String.prefix "Infinity" s)%bool
  | EmptyString => false
  end.

(** A number can be read at the head of the answer: after leading white
    space and an optional sign the text starts as a numeric literal does. *)
Definition starts_number (s : string) : bool :=
  match TrimStart s with
  | String c r =>
      if (Ascii.eqb c "+" || Ascii.eqb c "-")%bool
      then numeric_head r
      else numeric_head (String c r)
  | EmptyString => false
  end.

(** Left shift of a mantissa, and the normal form of the positive integer
    [q] as a binary64 value; used to show that integer arithmetic below
    [2^53] is exact. *)
Definition pshl (q : positive) (k : Z) : positive :=
  match k with
  | Zpos n => Pos.iter xO q n
  | _ => q
  end.

Definition canon (s : bool) (q : positive) : number :=
  let d := Zpos (digits2_pos q) in
  S754_finite s (pshl q (prec - d)) (d - prec).

(** *** Closed examples *)

(** A stand-in for [Date.parse] in the closed examples: the time field is
    read as a count of seconds. *)
Definition example_Date_parse (t : string) : number :=
  of_Z (1000 * MV_digits t).

Definition example_sample (i : nat) : Sample :=
  {| time := String (ascii_of_nat (48 + i mod 10)) EmptyString;
     humidity := of_Z (Z.of_nat i);
     lux := of_Z 50;
     temperature := of_Z 20;
     pressure := of_Z 1 |}.

(** A store of [n] samples, the oldest first. *)
Definition example_store (n : nat) : list Sample :=
  map example_sample (seq 0 n).

Definition example_options (tf : string) : Options :=
  {| timeframe := tf; temperature_unit := "Celsius"; pressure_unit := "Bar" |}.

(** Every series of the chart has at least one point. *)
Definition has_points (g : Graph) : bool :=
  forallb (fun s => negb (Nat.eqb (List.length (data s)) 0)) g.

(** A stand-in for the chart library in the closed examples: its widgets
    and its render complete on a chart whose series all have points, and
    throw on a chart with a series without points. *)
Definition example_Rickshaw : ChartLibrary :=
  let on_points (g : Graph) : Completion unit :=
    if has_points g then Normal tt else Throw TypeError in
  {| widgets := on_points; rendering := on_points |}.

(** The globals after the page has loaded a store of [n] samples. *)
Definition example_loaded (tf : string) (n : nat) : State :=
  snd (loadData example_Date_parse example_Rickshaw (Normal (example_store n))
         (script_start (example_options tf))).

(** *** Vocabulary of the further properties *)

(** [m] leaves the projection [proj] of the globals as it finds it. *)
Definition preserves {A B : Type} (proj : State -> B) (m : M A) : Prop :=
  forall st, proj (snd (m st)) = proj st.

(** The fetched data: the store and the function that unpacks it. *)
Definition store (st : State) : option (list Sample) * bool :=
  (temp_parsedResponse st, temp_unpackData st).

(** The chart and the window it was built from. *)
Definition chart (st : State) : option Graph * option (list Sample) :=
  (graph st, parsedResponse st).

(** The index of the store at which the window starts: the clamped start
    index of the [slice] of lines 66 and 213. *)
Definition window_start (a : list Sample) (array_length : number) : nat :=
  Z.to_nat
    (relative_index (Z.of_nat (List.length a))
       (ToIntegerOrInfinity (sub (length_of a) array_length))).

(** A non-empty response has been loaded. *)
Definition ready (st : State) : Prop :=
  temp_unpackData st = true /\
  exists (a : list Sample) (obj : Sample),
    temp_parsedResponse st = Some (a ++ [obj])%list /\
    array_like (a ++ [obj])%list.

(** What the user can do on the page: press a button that calls
    [updateGraph] with a name, or answer the prompt of [customTimestamp]. *)
Inductive Action : Type :=
  | Press (timestamp : string)
  | Answer (person : option string).

Section Actions.

Variable Date_parse : string -> number.
Variable Rickshaw : ChartLibrary.

Definition perform (act : Action) : M unit :=
  match act with
  | Press timestamp => updateGraph Date_parse Rickshaw timestamp
  | Answer person => customTimestamp Date_parse Rickshaw person
  end.

(** The actions one after the other, up to the first exception that is
    not caught. *)
Fixpoint perform_all (acts : list Action) : M unit :=
  match acts with
  | [] => ret tt
  | act :: acts' => perform act ;; perform_all acts'
  end.

End Actions.

(** The answer is made of decimal digits only. *)
Fixpoint all_digits (s : string) : bool :=
  match s with
  | String c s' => (is_digit c && all_digits s')%bool
  | EmptyString => true
  end.

(** The answer is made of white space only. *)
Fixpoint all_white_space (s : string) : bool :=
  match s with
  | String c s' => (is_white_space c && all_white_space s')%bool
  | EmptyString => true
  end.

(** [x] is a number (not NaN) whose sign bit is [s]. *)
Definition signed (s : bool) (x : number) : Prop :=
  match x with
  | S754_zero s' | S754_infinity s' | S754_finite s' _ _ => s' = s
  | S754_nan => False
  end.

(** The chart library completes, widgets and render, on every chart whose
    series all have at least one point. *)
Definition completes_on_points (Rickshaw : ChartLibrary) : Prop :=
  forall g : Graph,
    has_points g = true ->
    widgets Rickshaw g = Normal tt /\ rendering Rickshaw g = Normal tt.

(** The sample count is a whole number of at least one sample. *)
Definition whole_count (st : State) : Prop :=
  exists n : Z, 1 <= n < 2 ^ 53 /\ array_length st = of_Z n.

(** The action is a button press, a cancelled prompt, or an answer written
    in decimal digits only, of a value below [2^53]. *)
Definition whole_action (act : Action) : bool :=
  match act with
  | Press _ => true
  | Answer None => true
  | Answer (Some s) => (all_digits s && (MV_digits s <? 2 ^ 53))%bool
  end.

(** ** Facts about the built-ins *)

(** *** Integers below [2^53] are exact *)

Lemma digits2_pos_size p : digits2_pos p = Pos.size p.
Proof. induction p; simpl; congruence. Qed.

Lemma pshl_spec q k : 0 <= k -> Zpos (pshl q k) = Zpos q * 2 ^ k.
Proof.
  intros Hk. destruct k as [|n|n]; try lia.
  - simpl. lia.
  - simpl pshl. induction n using Pos.peano_ind.
    + simpl. lia.
    + rewrite Pos.iter_succ, Pos2Z.inj_succ, Z.pow_succ_r by lia.
      rewrite Pos2Z.inj_xO. lia.
Qed.

Lemma pshl_digits q k : 0 <= k -> Zpos (digits2_pos (pshl q k)) = Zpos (digits2_pos q) + k.
Proof.
  intros Hk. destruct k as [|n|n]; simpl; try lia.
  induction n using Pos.peano_ind.
  - simpl. lia.
  - rewrite Pos.iter_succ. simpl. lia.
Qed.

Lemma pshl_pshl q a b : 0 <= a -> 0 <= b -> pshl (pshl q a) b = pshl q (a + b).
Proof.
  intros Ha Hb. apply Pos2Z.inj. rewrite !pshl_spec by lia.
  rewrite Z.pow_add_r by lia. lia.
Qed.

Lemma iter_pos_iter {A} (f : A -> A) p : forall x, iter_pos f p x = Pos.iter f x p.
Proof.
  induction p; intros x; simpl.
  - rewrite !IHp. rewrite <- !Pos.iter_swap. reflexivity.
  - rewrite !IHp. reflexivity.
  - reflexivity.
Qed.

Lemma shr_exact q e n :
  0 <= n ->
  shr {| shr_m := Zpos (pshl q n); shr_r := false; shr_s := false |} e n
  = ({| shr_m := Zpos q; shr_r := false; shr_s := false |}, e + n).
Proof.
  intros Hn. destruct n as [|n|n]; [ | | lia ].
  - simpl. f_equal. lia.
  - unfold shr, pshl. f_equal. rewrite iter_pos_iter. clear Hn. revert q.
    induction n using Pos.peano_ind; intros q.
    + reflexivity.
    + rewrite Pos.iter_succ_r. rewrite Pos.iter_succ. simpl. apply IHn.
Qed.

Lemma shl_align_pshl mx ex ex' :
  shl_align mx ex ex' = (pshl mx (ex - ex'), Z.min ex ex').
Proof.
  unfold shl_align.
  destruct (ex' - ex) as [|d|d] eqn:E.
  - replace (ex - ex') with 0 by lia. simpl. f_equal. lia.
  - replace (ex - ex') with (Zneg d) by lia. simpl. f_equal. lia.
  - replace (ex - ex') with (Zpos d) by lia. simpl. f_equal. lia.
Qed.

Lemma fexp_small d : 1 <= d -> fexp prec emax d = d - prec.
Proof. unfold fexp, emin, prec, emax. lia. Qed.

(** Rounding a value that fits in 53 bits is exact. *)
Lemma binary_round_aux_exact s q k :
  Zpos (digits2_pos q) <= prec ->
  0 <= k ->
  Zpos (digits2_pos q) - prec + k >= 0 ->
  binary_round_aux prec emax s (Zpos (pshl q k)) (- k) loc_Exact = canon s q.
Proof.
  intros Hd Hk Hs.
  unfold binary_round_aux, shr_fexp.
  set (d := Zpos (digits2_pos q)) in *.
  assert (Hdig : Zdigits2 (Zpos (pshl q k)) = d + k).
  { unfold Zdigits2. apply pshl_digits; lia. }
  rewrite Hdig.
  replace (d + k + - k) with d by lia.
  rewrite fexp_small by (unfold d; lia).
  cbn [shr_record_of_loc].
  set (n := d - prec - - k).
  replace (pshl q k) with (pshl (pshl q (prec - d)) n)
    by (rewrite pshl_pshl by (unfold n; lia); f_equal; unfold n; lia).
  rewrite shr_exact by (unfold n; lia).
  cbn [loc_of_shr_record shr_m round_nearest_even].
  assert (Hdig2 : Zdigits2 (Zpos (pshl q (prec - d))) = prec).
  { unfold Zdigits2. rewrite pshl_digits by lia. fold d. lia. }
  rewrite Hdig2.
  replace (- k + n) with (d - prec) by (unfold n; lia).
  replace (prec + (d - prec)) with d by lia.
  rewrite fexp_small by (unfold d; lia).
  rewrite Z.sub_diag. cbn [shr shr_m].
  replace (d - prec <=? emax - prec) with true
    by (symmetry; apply Z.leb_le; unfold emax, prec in *; lia).
  reflexivity.
Qed.

Lemma binary_round_exact s q k :
  Zpos (digits2_pos q) <= prec ->
  0 <= k ->
  binary_round prec emax s (pshl q k) (- k) = canon s q.
Proof.
  intros Hd Hk. unfold binary_round.
  rewrite shl_align_pshl.
  rewrite pshl_digits by lia.
  set (d := Zpos (digits2_pos q)) in *.
  replace (d + k + - k) with d by lia.
  rewrite fexp_small by (unfold d; lia).
  destruct (Z_le_gt_dec (d - prec) (- k)) as [Hle|Hgt].
  - rewrite Z.min_r by lia.
    rewrite pshl_pshl by lia.
    replace (k + (- k - (d - prec))) with (prec - d) by lia.
    replace (d - prec) with (- (prec - d)) by lia.
    rewrite binary_round_aux_exact; fold d; try lia.
    reflexivity.
  - rewrite Z.min_l by lia.
    replace (pshl (pshl q k) (- k - (d - prec))) with (pshl q k).
    2:{ destruct (- k - (d - prec)) eqn:E; try lia. reflexivity. }
    apply binary_round_aux_exact; fold d; lia.
Qed.

Lemma digits_bound q : Zpos q < 2 ^ prec -> Zpos (digits2_pos q) <= prec.
Proof.
  intros Hq. rewrite digits2_pos_size.
  destruct (Z_le_gt_dec (Zpos (Pos.size q)) prec) as [H|H]; [exact H|exfalso].
  pose proof (Pos.size_le q) as Hs.
  apply Pos2Z.pos_le_pos in Hs. rewrite Pos2Z.inj_pow in Hs.
  assert (2 ^ (prec + 1) <= 2 ^ Zpos (Pos.size q))
    by (apply Z.pow_le_mono_r; lia).
  rewrite Z.pow_add_r in H0 by (unfold prec; lia).
  lia.
Qed.

Lemma of_Z_pos q : Zpos q < 2 ^ prec -> of_Z (Zpos q) = canon false q.
Proof.
  intros Hq. unfold of_Z, binary_normalize.
  change (binary_round prec emax false (pshl q 0) (- 0) = canon false q).
  apply binary_round_exact; [apply digits_bound; exact Hq | lia].
Qed.

Lemma of_Z_neg q : Zpos q < 2 ^ prec -> of_Z (Zneg q) = canon true q.
Proof.
  intros Hq. unfold of_Z, binary_normalize.
  change (binary_round prec emax true (pshl q 0) (- 0) = canon true q).
  apply binary_round_exact; [apply digits_bound; exact Hq | lia].
Qed.

Lemma binary_normalize_exact z k :
  Z.abs z < 2 ^ prec -> 0 <= k ->
  binary_normalize prec emax (z * 2 ^ k) (- k) false = of_Z z.
Proof.
  intros Hz Hk. destruct z as [|q|q].
  - reflexivity.
  - rewrite of_Z_pos by exact Hz.
    rewrite <- pshl_spec by exact Hk. unfold binary_normalize.
    apply binary_round_exact; [apply digits_bound; exact Hz | exact Hk].
  - rewrite of_Z_neg by exact Hz.
    replace (Zneg q * 2 ^ k) with (Zneg (pshl q k))
      by (pose proof (pshl_spec q k Hk); lia).
    unfold binary_normalize.
    apply binary_round_exact; [apply digits_bound; exact Hz | exact Hk].
Qed.

(** Subtraction of two integers below [2^53] is exact. *)
Lemma sub_of_Z a b :
  0 <= a < 2 ^ prec -> 0 <= b < 2 ^ prec ->
  sub (of_Z a) (of_Z b) = of_Z (a - b).
Proof.
  intros Ha Hb.
  destruct a as [|qa|qa]; [ | | lia]; destruct b as [|qb|qb]; try lia.
  - reflexivity.
  - rewrite of_Z_pos by lia. simpl Z.sub. rewrite of_Z_neg by lia. reflexivity.
  - rewrite Z.sub_0_r, of_Z_pos by lia. reflexivity.
  - rewrite (of_Z_pos qa), (of_Z_pos qb) by lia. unfold canon, sub, SFsub.
    set (da := Zpos (digits2_pos qa)). set (db := Zpos (digits2_pos qb)).
    assert (Hda : da <= prec) by (apply digits_bound; lia).
    assert (Hdb : db <= prec) by (apply digits_bound; lia).
    rewrite !shl_align_pshl. cbn [fst cond_Zopp].
    rewrite !pshl_pshl by lia.
    set (ez := Z.min (da - prec) (db - prec)).
    replace (prec - da + (da - prec - ez)) with (- ez) by lia.
    replace (prec - db + (db - prec - ez)) with (- ez) by lia.
    rewrite !pshl_spec by (unfold ez; lia).
    rewrite <- Z.mul_sub_distr_r.
    pose proof (binary_normalize_exact (Zpos qa - Zpos qb) (- ez)) as E.
    rewrite Z.opp_involutive in E. apply E; [lia | unfold ez; lia].
Qed.

Lemma ToIntegerOrInfinity_of_Z z :
  Z.abs z < 2 ^ prec -> ToIntegerOrInfinity (of_Z z) = Fin z.
Proof.
  intros Hz.
  assert (Hc : forall s q, Zpos q < 2 ^ prec ->
            ToIntegerOrInfinity (canon s q) = Fin (cond_Zopp s (Zpos q))).
  { intros s q Hq. unfold canon, ToIntegerOrInfinity.
    set (d := Zpos (digits2_pos q)).
    assert (Hd : d <= prec) by (apply digits_bound; exact Hq).
    rewrite pshl_spec by lia. rewrite <- Z.shiftl_mul_pow2 by lia.
    replace (d - prec) with (- (prec - d)) by lia.
    rewrite Z.shiftl_opp_r, Z.shiftr_shiftl_l by lia.
    rewrite Z.sub_diag. reflexivity. }
  destruct z as [|q|q].
  - reflexivity.
  - rewrite of_Z_pos by exact Hz. apply Hc. exact Hz.
  - rewrite of_Z_neg by exact Hz. apply Hc. exact Hz.
Qed.

Lemma Array_get_of_Z {A} (O : list A) i :
  0 <= i < 2 ^ prec -> Array_get O (of_Z i) = nth_error O (Z.to_nat i).
Proof.
  intros Hi. destruct i as [|q|q]; [reflexivity | | lia].
  rewrite of_Z_pos by lia. unfold canon, Array_get.
  set (d := Zpos (digits2_pos q)).
  assert (Hd : d <= prec) by (apply digits_bound; lia).
  cbv zeta.
  assert (E : Z.shiftl (Zpos (pshl q (prec - d))) (d - prec) = Zpos q).
  { rewrite pshl_spec by lia. rewrite <- Z.shiftl_mul_pow2 by lia.
    replace (d - prec) with (- (prec - d)) by lia.
    rewrite Z.shiftl_opp_r, Z.shiftr_shiftl_l by lia.
    rewrite Z.sub_diag. reflexivity. }
  rewrite E.
  replace (Z.shiftl (Zpos q) (- (d - prec))) with (Zpos (pshl q (prec - d))).
  - rewrite Z.eqb_refl. reflexivity.
  - rewrite pshl_spec by lia. rewrite <- Z.shiftl_mul_pow2 by lia.
    f_equal. lia.
Qed.

(** *** Comparisons *)

Lemma SFcompare_antisym (a b : number) :
  SFcompare b a = option_map CompOpp (SFcompare a b).
Proof.
  destruct a as [sa|sa| |sa ma ea], b as [sb|sb| |sb mb eb];
    try destruct sa; try destruct sb; try reflexivity;
    simpl; rewrite (Z.compare_antisym ea eb);
    destruct (ea ?= eb); simpl; try reflexivity;
    rewrite (Pos.compare_cont_antisym ma mb Eq); simpl;
    try rewrite CompOpp_involutive; reflexivity.
Qed.

Lemma lt_not_ge (a b : number) : lt a b = true -> ge a b = false.
Proof.
  unfold lt, ge, SFltb, SFleb. rewrite (SFcompare_antisym a b).
  destruct (SFcompare a b) as [[ | | ]|]; simpl; congruence.
Qed.

Lemma lt_not_le (a b : number) : lt a b = true -> le b a = false.
Proof. exact (lt_not_ge a b). Qed.

Lemma lt_not_NaN_r (a b : number) : lt a b = true -> Number_isNaN b = false.
Proof.
  unfold lt, SFltb. destruct b; try reflexivity.
  destruct a; simpl; discriminate.
Qed.

Lemma le_not_NaN_l (a b : number) : le a b = true -> Number_isNaN a = false.
Proof. unfold le, SFleb. destruct a; try reflexivity. discriminate. Qed.

Lemma ge_not_NaN_l (a b : number) : ge a b = true -> Number_isNaN a = false.
Proof.
  unfold ge, SFleb. destruct a; try reflexivity.
  destruct b; simpl; discriminate.
Qed.

(** *** The scanner of [parseFloat] *)


(** An answer whose first character is neither white space nor the start
    of a numeric literal is not a number. *)
Lemma parseFloat_no_number (c : ascii) (s : string) :
  is_white_space c = false -> is_digit c = false ->
  c <> "+"%char -> c <> "-"%char -> c <> "."%char -> c <> "I"%char ->
  parseFloat (String c s) = NaN.
Proof.
  intros Hw Hd Hp Hm Hdot Hi.
  destruct c as [b0 b1 b2 b3 b4 b5 b6 b7].
  destruct b0, b1, b2, b3, b4, b5, b6, b7;
    first [ reflexivity | discriminate Hw | discriminate Hd
          | exfalso; apply Hp; reflexivity | exfalso; apply Hm; reflexivity
          | exfalso; apply Hdot; reflexivity | exfalso; apply Hi; reflexivity ].
Qed.

(** ** Further facts about the built-ins *)

(** *** Products and order of integers below [2^53] *)

Lemma digits_lower q : 2 ^ (Zpos (digits2_pos q) - 1) <= Zpos q.
Proof.
  rewrite digits2_pos_size.
  pose proof (Pos.size_le q) as Hs.
  apply Pos2Z.pos_le_pos in Hs. rewrite Pos2Z.inj_pow in Hs.
  replace (Zpos (Pos.size q)) with (Zpos (Pos.size q) - 1 + 1) in Hs by lia.
  rewrite Z.pow_add_r in Hs by lia. lia.
Qed.

Lemma digits_upper q : Zpos q < 2 ^ Zpos (digits2_pos q).
Proof.
  rewrite digits2_pos_size.
  pose proof (Pos.size_gt q) as Hs.
  apply Pos2Z.pos_lt_pos in Hs. rewrite Pos2Z.inj_pow in Hs. exact Hs.
Qed.

Lemma digits_mono p q :
  Zpos p <= Zpos q -> Zpos (digits2_pos p) <= Zpos (digits2_pos q).
Proof.
  intros H. pose proof (digits_lower p). pose proof (digits_upper q).
  destruct (Z_le_gt_dec (Zpos (digits2_pos p)) (Zpos (digits2_pos q)));
    [assumption|exfalso].
  assert (2 ^ Zpos (digits2_pos q) <= 2 ^ (Zpos (digits2_pos p) - 1))
    by (apply Z.pow_le_mono_r; lia).
  lia.
Qed.

Lemma digits_mul p q :
  Zpos (digits2_pos p) + Zpos (digits2_pos q) - 1
    <= Zpos (digits2_pos (p * q)).
Proof.
  pose proof (digits_lower p) as Hp. pose proof (digits_lower q) as Hq.
  pose proof (digits_upper (p * q)) as Hpq.
  set (dp := Zpos (digits2_pos p)) in *. set (dq := Zpos (digits2_pos q)) in *.
  set (d := Zpos (digits2_pos (p * q))) in *.
  destruct (Z_le_gt_dec (dp + dq - 1) d); [assumption|exfalso].
  assert (2 ^ d <= 2 ^ (dp - 1 + (dq - 1)))
    by (apply Z.pow_le_mono_r; unfold dp, dq, d in *; lia).
  rewrite Z.pow_add_r in H by (unfold dp, dq; lia).
  rewrite Pos2Z.inj_mul in Hpq.
  assert (2 ^ (dp - 1) * 2 ^ (dq - 1) <= Zpos p * Zpos q)
    by (apply Z.mul_le_mono_nonneg; try assumption;
        apply Z.pow_nonneg; lia).
  lia.
Qed.

(** Multiplication of two non-negative integers is exact as long as the
    product is below [2^53]. *)
Lemma mul_of_Z a b :
  0 <= a < 2 ^ prec -> 0 <= b < 2 ^ prec -> a * b < 2 ^ prec ->
  mul (of_Z a) (of_Z b) = of_Z (a * b).
Proof.
  intros Ha Hb Hab.
  destruct a as [|qa|qa]; [ | | lia]; destruct b as [|qb|qb]; try lia.
  - reflexivity.
  - rewrite of_Z_pos by lia. reflexivity.
  - rewrite Z.mul_0_r. rewrite of_Z_pos by lia. reflexivity.
  - assert (Hqa : Zpos qa < 2 ^ prec) by lia.
    assert (Hqb : Zpos qb < 2 ^ prec) by lia.
    rewrite (of_Z_pos qa), (of_Z_pos qb) by assumption.
    change (Zpos qa * Zpos qb) with (Zpos (qa * qb)) in *.
    rewrite of_Z_pos by assumption.
    unfold canon at 1 2, mul, SFmul. cbn [xorb].
    pose proof (digits_bound qa Hqa) as Hda.
    pose proof (digits_bound qb Hqb) as Hdb.
    pose proof (digits_bound (qa * qb) Hab) as Hd.
    pose proof (digits_mul qa qb) as Hm.
    set (da := Zpos (digits2_pos qa)) in *.
    set (db := Zpos (digits2_pos qb)) in *.
    replace (Zpos (pshl qa (prec - da) * pshl qb (prec - db)))
      with (Zpos (pshl (qa * qb) (prec - da + (prec - db)))).
    2:{ rewrite Pos2Z.inj_mul, !pshl_spec by lia.
        rewrite Z.pow_add_r by lia. rewrite Pos2Z.inj_mul. ring. }
    replace (da - prec + (db - prec)) with (- (prec - da + (prec - db)))
      by lia.
    apply binary_round_aux_exact; unfold prec in *; lia.
Qed.

(** The order of the integers below [2^53] is the order of their Number
    values. *)
Lemma lt_of_Z a b :
  0 <= a -> a < b -> b < 2 ^ prec -> lt (of_Z a) (of_Z b) = true.
Proof.
  intros Ha Hab Hb.
  destruct b as [|qb|qb]; try lia.
  rewrite (of_Z_pos qb) by assumption.
  destruct a as [|qa|qa]; [reflexivity | | lia].
  rewrite (of_Z_pos qa) by lia.
  unfold canon, lt, SFltb, SFcompare.
  pose proof (digits_mono qa qb ltac:(lia)) as Hm.
  pose proof (digits_bound qb Hb) as Hdb.
  set (da := Zpos (digits2_pos qa)) in *.
  set (db := Zpos (digits2_pos qb)) in *.
  destruct (Z.compare_spec (da - prec) (db - prec)) as [E|L|G];
    [ | reflexivity | lia ].
  replace db with da by lia.
  change (Pos.compare_cont Eq ?x ?y) with (Pos.compare x y).
  assert (Hlt : (pshl qa (prec - da) < pshl qb (prec - da))%positive).
  { assert (Zpos (pshl qa (prec - da)) < Zpos (pshl qb (prec - da))); [|lia].
    rewrite !pshl_spec by lia.
    apply Z.mul_lt_mono_pos_r; [apply Z.pow_pos_nonneg; lia | lia]. }
  rewrite (proj2 (Pos.compare_lt_iff _ _) Hlt). reflexivity.
Qed.

(** *** Answers of digits, of white space, with a sign *)

Lemma digit_head (c : ascii) :
  is_digit c = true ->
  is_white_space c = false /\ Ascii.eqb c "+" = false /\
  Ascii.eqb c "-" = false /\ Ascii.eqb "I" c = false /\
  0 <= digit_value c <= 9.
Proof.
  destruct c as [b0 b1 b2 b3 b4 b5 b6 b7].
  destruct b0, b1, b2, b3, b4, b5, b6, b7; intros H;
    try discriminate H; repeat split; try reflexivity;
    vm_compute; discriminate.
Qed.

Lemma digits_prefix_all (d : string) :
  all_digits d = true -> digits_prefix d = (d, EmptyString).
Proof.
  induction d as [|c d IH]; simpl; [reflexivity|].
  intros H. apply andb_true_iff in H as [Hc Hd].
  rewrite Hc, (IH Hd). reflexivity.
Qed.

Lemma MV_digits_from_nonneg (d : string) : forall acc,
  all_digits d = true -> 0 <= acc -> 0 <= MV_digits_from acc d.
Proof.
  induction d as [|c d IH]; cbn [MV_digits_from all_digits];
    intros acc H Hacc; [exact Hacc|].
  apply andb_true_iff in H as [Hc Hd].
  apply IH; [exact Hd|].
  destruct (digit_head c Hc) as (_ & _ & _ & _ & Hv). lia.
Qed.

Lemma append_empty_r (s : string) : (s ++ "")%string = s.
Proof. induction s as [|c s IH]; simpl; [reflexivity | rewrite IH; reflexivity]. Qed.

(** An answer made of decimal digits only is read as the integer it
    writes. *)
Lemma parseFloat_digits (d : string) :
  d <> EmptyString -> all_digits d = true ->
  parseFloat d = of_Z (MV_digits d).
Proof.
  intros Hne Hd. destruct d as [|c d]; [congruence|].
  pose proof Hd as Hd0. cbn [all_digits] in Hd0.
  apply andb_true_iff in Hd0 as [Hc _].
  destruct (digit_head c Hc) as (Hw & Hp & Hm & Hi & _).
  unfold parseFloat. cbn [TrimStart]. rewrite Hw.
  unfold scan_literal, scan_sign. rewrite Hp, Hm.
  unfold scan_unsigned. cbn [strip_prefix]. rewrite Hi.
  rewrite (digits_prefix_all _ Hd).
  cbn [strip_prefix scan_exponent StringNumericValue String.length].
  rewrite append_empty_r.
  pose proof (MV_digits_from_nonneg (String c d) 0 Hd ltac:(lia)) as Hn.
  fold (MV_digits (String c d)) in Hn.
  destruct (MV_digits (String c d)) as [|p|p]; [reflexivity| |lia].
  cbn. rewrite Pos.mul_1_r. reflexivity.
Qed.

Lemma TrimStart_white (ws s : string) :
  all_white_space ws = true -> TrimStart (ws ++ s) = TrimStart s.
Proof.
  induction ws as [|c ws IH]; simpl; [reflexivity|].
  intros H. apply andb_true_iff in H as [Hc Hws].
  rewrite Hc. apply IH, Hws.
Qed.

Lemma parseFloat_white (ws s : string) :
  all_white_space ws = true -> parseFloat (ws ++ s) = parseFloat s.
Proof.
  intros H. unfold parseFloat. rewrite (TrimStart_white ws s H). reflexivity.
Qed.

Lemma parseFloat_white_only (ws : string) :
  all_white_space ws = true -> parseFloat ws = NaN.
Proof.
  intros H. rewrite <- (append_empty_r ws).
  rewrite (parseFloat_white ws "" H). reflexivity.
Qed.

(** *** Signs *)

Lemma iter_pos_invariant {A : Type} (P : A -> Prop) (f : A -> A) :
  (forall x, P x -> P (f x)) -> forall n x, P x -> P (iter_pos f n x).
Proof.
  intros Hf. induction n as [n IH|n IH|]; intros x Hx; simpl; auto.
Qed.

Lemma shr_1_nonneg mrs : 0 <= shr_m mrs -> 0 <= shr_m (shr_1 mrs).
Proof.
  destruct mrs as [m r s]. simpl.
  destruct m as [|p|p]; simpl; try lia; destruct p; simpl; lia.
Qed.

Lemma shr_nonneg mrs e n : 0 <= shr_m mrs -> 0 <= shr_m (fst (shr mrs e n)).
Proof.
  intros H. destruct n as [|p|p]; simpl; try exact H.
  apply (iter_pos_invariant (fun x => 0 <= shr_m x)); [apply shr_1_nonneg | exact H].
Qed.

Lemma shr_record_of_loc_m m l : shr_m (shr_record_of_loc m l) = m.
Proof. destruct l as [|[ | | ]]; reflexivity. Qed.

Lemma round_nearest_even_nonneg m l : 0 <= m -> 0 <= round_nearest_even m l.
Proof.
  intros H. destruct l as [|[ | | ]]; simpl; try lia.
  destruct (Z.even m); lia.
Qed.

Lemma binary_round_aux_signed sx mx ex lx :
  0 <= mx -> signed sx (binary_round_aux prec emax sx mx ex lx).
Proof.
  intros H. unfold binary_round_aux, shr_fexp.
  pose proof (shr_nonneg (shr_record_of_loc mx lx) ex
    (fexp prec emax (Zdigits2 mx + ex) - ex)) as H1.
  rewrite shr_record_of_loc_m in H1. specialize (H1 H).
  destruct (shr (shr_record_of_loc mx lx) ex _) as [mrs' e'].
  cbn [fst] in H1.
  set (m1 := round_nearest_even (shr_m mrs') (loc_of_shr_record mrs')).
  assert (Hm1 : 0 <= m1) by (apply round_nearest_even_nonneg; exact H1).
  pose proof (shr_nonneg (shr_record_of_loc m1 loc_Exact) e'
    (fexp prec emax (Zdigits2 m1 + e') - e')) as H2.
  rewrite shr_record_of_loc_m in H2. specialize (H2 Hm1).
  destruct (shr (shr_record_of_loc m1 loc_Exact) e' _) as [mrs'' e''].
  cbn [fst] in H2.
  destruct (shr_m mrs'') as [|m|m]; [reflexivity | | lia].
  destruct (e'' <=? emax - prec); reflexivity.
Qed.

Lemma StringNumericValue_signed neg ip fp ex :
  signed neg (StringNumericValue (LitDecimal neg ip fp ex)).
Proof.
  unfold StringNumericValue.
  destruct (MV_digits (ip ++ fp)) as [|p|p]; try reflexivity.
  destruct (0 <=? ex - Z.of_nat (String.length fp)).
  - unfold binary_round.
    destruct (shl_align _ _ _) as [mz ez].
    apply binary_round_aux_signed. lia.
  - unfold SFdiv, SFdiv_core_binary.
    set (m' := match _ with Zpos _ => _ | Z0 => _ | Zneg _ => _ end).
    assert (Hm' : 0 <= m').
    { unfold m'. destruct (_ - _ - _); try lia. apply Z.shiftl_nonneg. lia. }
    pose proof
      (Z.div_pos m'
         (Zpos (Z.to_pos (10 ^ (- (ex - Z.of_nat (String.length fp))))))
         Hm' ltac:(lia)) as Hq.
    unfold Z.div in Hq.
    destruct (Z.div_eucl m' _) as [q r]. cbn [fst] in Hq.
    replace (xorb neg false) with neg by (destruct neg; reflexivity).
    apply binary_round_aux_signed. exact Hq.
Qed.

Lemma scan_unsigned_neg neg t l r :
  scan_unsigned neg t = Some (l, r) ->
  match l with
  | LitInfinity n => n = neg
  | LitDecimal n _ _ _ => n = neg
  end.
Proof.
  unfold scan_unsigned.
  destruct (strip_prefix "Infinity" t); [intros E; inversion E; reflexivity|].
  destruct (digits_prefix t) as [ip r1].
  destruct (match strip_prefix "." r1 with
            | Some r2 => digits_prefix r2
            | None => (EmptyString, r1)
            end) as [fp r3].
  destruct ip, fp; try discriminate;
    destruct (scan_exponent r3); intros E; inversion E; reflexivity.
Qed.

(** What [parseFloat] reads after a minus sign is never above zero. *)
Lemma parseFloat_minus (s t : string) :
  TrimStart s = String "-" t ->
  Number_isNaN (parseFloat s) = true \/ le (parseFloat s) (of_Z 0) = true.
Proof.
  intros E. unfold parseFloat. rewrite E.
  unfold scan_literal. cbn [scan_sign].
  change (Ascii.eqb "-" "+") with false. change (Ascii.eqb "-" "-") with true.
  cbv iota.
  destruct (scan_unsigned true t) as [[l r]|] eqn:Es; [|left; reflexivity].
  right. pose proof (scan_unsigned_neg _ _ _ _ Es) as Hn.
  destruct l as [n|n ip fp ex]; subst n; [reflexivity|].
  pose proof (StringNumericValue_signed true ip fp ex) as Hs.
  destruct (StringNumericValue (LitDecimal true ip fp ex)) as [s0|s0| |s0 m e];
    simpl in Hs; try contradiction; subst s0; reflexivity.
Qed.

(** *** Answers at whose head a number can be read *)

Lemma strip_prefix_prefix (p : string) : forall s,
  String.prefix p s = match strip_prefix p s with Some _ => true | None => false end.
Proof.
  induction p as [|a p IH]; intros s; [destruct s; reflexivity|].
  destruct s as [|b s]; [reflexivity|].
  cbn [String.prefix strip_prefix].
  destruct (Ascii.ascii_dec a b) as [->|Hab].
  - rewrite Ascii.eqb_refl. apply IH.
  - destruct (Ascii.eqb_spec a b); [congruence | reflexivity].
Qed.

Lemma digits_prefix_head (c : ascii) (s : string) :
  is_digit c = false -> digits_prefix (String c s) = (EmptyString, String c s).
Proof. intros H. cbn [digits_prefix]. rewrite H. reflexivity. Qed.

Lemma digits_prefix_nonempty (c : ascii) (s : string) :
  is_digit c = true -> fst (digits_prefix (String c s)) <> EmptyString.
Proof.
  intros H. cbn [digits_prefix]. rewrite H.
  destruct (digits_prefix s). discriminate.
Qed.

Lemma dot_not_digit : is_digit "." = false.
Proof. reflexivity. Qed.

(** No literal is read where the text has no numeric head. *)
Lemma scan_unsigned_none (neg : bool) (u : string) :
  numeric_head u = false -> scan_unsigned neg u = None.
Proof.
  intros H. unfold scan_unsigned.
  destruct u as [|c r]; [reflexivity|].
  cbn [numeric_head] in H.
  apply orb_false_iff in H as [H Hinf]. apply orb_false_iff in H as [Hd Hdot].
  rewrite strip_prefix_prefix in Hinf.
  destruct (strip_prefix "Infinity" (String c r)); [discriminate|].
  rewrite (digits_prefix_head c r Hd).
  cbn [strip_prefix].
  destruct (Ascii.eqb_spec "."%char c) as [<-|Hne].
  - rewrite Ascii.eqb_refl in Hdot. cbn [andb] in Hdot.
    destruct r as [|d r']; [reflexivity|].
    rewrite (digits_prefix_head d r' Hdot). reflexivity.
  - reflexivity.
Qed.

(** A literal is read where the text has a numeric head. *)
Lemma scan_unsigned_some (neg : bool) (u : string) :
  numeric_head u = true ->
  exists l r, scan_unsigned neg u = Some (l, r).
Proof.
  intros H. unfold scan_unsigned.
  destruct u as [|c r]; [discriminate|].
  destruct (strip_prefix "Infinity" (String c r)) as [r0|] eqn:Ei;
    [eexists; eexists; reflexivity|].
  cbn [numeric_head] in H. rewrite strip_prefix_prefix, Ei in H.
  rewrite orb_false_r in H.
  apply orb_true_iff in H as [Hd|Hdot].
  - pose proof (digits_prefix_nonempty c r Hd) as Hip.
    destruct (digits_prefix (String c r)) as [ip r1]. cbn [fst] in Hip.
    destruct (match strip_prefix "." r1 with
              | Some r2 => digits_prefix r2
              | None => (EmptyString, r1)
              end) as [fp r3].
    destruct ip as [|c0 ip]; [congruence|].
    destruct (scan_exponent r3) as [ex r4]. eexists; eexists; reflexivity.
  - apply andb_true_iff in Hdot as [Hc Hd].
    apply Ascii.eqb_eq in Hc. subst c.
    rewrite (digits_prefix_head "." r dot_not_digit).
    cbn [strip_prefix]. rewrite Ascii.eqb_refl.
    destruct r as [|d r']; [discriminate|].
    pose proof (digits_prefix_nonempty d r' Hd) as Hfp.
    destruct (digits_prefix (String d r')) as [fp r3]. cbn [fst] in Hfp.
    destruct fp as [|c0 fp]; [congruence|].
    destruct (scan_exponent r3) as [ex r4]. eexists; eexists; reflexivity.
Qed.

Lemma StringNumericValue_not_NaN (l : StrLiteral) :
  Number_isNaN (StringNumericValue l) = false.
Proof.
  destruct l as [neg|neg ip fp ex]; [reflexivity|].
  pose proof (StringNumericValue_signed neg ip fp ex) as H.
  destruct (StringNumericValue (LitDecimal neg ip fp ex));
    try reflexivity. contradiction.
Qed.

Lemma scan_literal_starts (s : string) :
  scan_literal (TrimStart s) = None <-> starts_number s = false.
Proof.
  unfold starts_number, scan_literal, scan_sign.
  destruct (TrimStart s) as [|c r]; [split; reflexivity|].
  destruct (Ascii.eqb c "+"); cbn [orb].
  - split; intros H.
    + destruct (numeric_head r) eqn:E; [|reflexivity].
      destruct (scan_unsigned_some false r E) as (l & r' & El). congruence.
    + apply scan_unsigned_none, H.
  - destruct (Ascii.eqb c "-").
    + split; intros H.
      * destruct (numeric_head r) eqn:E; [|reflexivity].
        destruct (scan_unsigned_some true r E) as (l & r' & El). congruence.
      * apply scan_unsigned_none, H.
    + split; intros H.
      * destruct (numeric_head (String c r)) eqn:E; [|reflexivity].
        destruct (scan_unsigned_some false _ E) as (l & r' & El). congruence.
      * apply scan_unsigned_none, H.
Qed.

(** [parseFloat] reads no number exactly from the answers that do not
    start with one. *)
Lemma parseFloat_NaN_starts (s : string) :
  Number_isNaN (parseFloat s) = negb (starts_number s).
Proof.
  unfold parseFloat.
  destruct (scan_literal (TrimStart s)) as [[l r]|] eqn:E.
  - rewrite StringNumericValue_not_NaN.
    destruct (starts_number s) eqn:Es; [reflexivity|].
    apply scan_literal_starts in Es. congruence.
  - apply scan_literal_starts in E. rewrite E. reflexivity.
Qed.

(** *** The text of the literal that the scanner reads *)













(** ** Facts about the script *)

(** *** The window taken from the store *)

Lemma array_like_prec {A : Type} (O : list A) :
  array_like O -> 0 <= Z.of_nat (List.length O) < 2 ^ prec.
Proof.
  unfold array_like, prec. intros H. split; [lia|].
  assert (2 ^ 32 < 2 ^ 53) by (apply Z.pow_lt_mono_r; lia). lia.
Qed.

(** For an integer sample count [n], the window starts at index [s - n]
    when that is not negative, and at [2s - n] (or 0 if that is negative
    too) otherwise; it always runs to the end of the store. *)
Lemma slice_window_of_Z (a : list Sample) (n : Z) :
  array_like a -> 0 <= n < 2 ^ 53 ->
  slice_window a (of_Z n) =
  let s := Z.of_nat (List.length a) in
  skipn (Z.to_nat (if s - n <? 0 then Z.max (s + (s - n)) 0 else s - n)) a.
Proof.
  intros Ha Hn. pose proof (array_like_prec a Ha) as Hs.
  change (2 ^ 53) with (2 ^ prec) in Hn.
  unfold slice_window, Array_slice, length_of.
  rewrite sub_of_Z by assumption.
  rewrite !ToIntegerOrInfinity_of_Z by lia.
  cbv zeta. set (s := Z.of_nat (List.length a)) in *.
  unfold relative_index.
  replace (s <? 0) with false by (symmetry; apply Z.ltb_ge; lia).
  rewrite Z.min_id.
  set (k := if s - n <? 0 then Z.max (s + (s - n)) 0 else Z.min (s - n) s).
  assert (Hk : 0 <= k <= s).
  { unfold k. destruct (Z.ltb_spec (s - n) 0); lia. }
  replace (if s - n <? 0 then Z.max (s + (s - n)) 0 else s - n) with k
    by (unfold k; destruct (Z.ltb_spec (s - n) 0); lia).
  apply firstn_all2. rewrite length_skipn. unfold s in *. lia.
Qed.

(** A sample count within the size of the store selects that many samples,
    the most recent ones, in their order. *)
Lemma slice_window_within (a : list Sample) (n : Z) :
  array_like a -> 0 <= n <= Z.of_nat (List.length a) ->
  slice_window a (of_Z n) = skipn (List.length a - Z.to_nat n) a /\
  List.length (slice_window a (of_Z n)) = Z.to_nat n.
Proof.
  intros Ha Hn. pose proof (array_like_prec a Ha) as Hs.
  change (2 ^ prec) with (2 ^ 53) in Hs.
  rewrite slice_window_of_Z by (try assumption; lia). cbv zeta.
  replace (Z.of_nat (List.length a) - n <? 0) with false
    by (symmetry; apply Z.ltb_ge; lia).
  replace (Z.to_nat (Z.of_nat (List.length a) - n))
    with (List.length a - Z.to_nat n)%nat by lia.
  split; [reflexivity|]. rewrite length_skipn. lia.
Qed.

(** A sample count of at least twice the size of the store selects the
    whole store. *)
Lemma slice_window_whole (a : list Sample) (n : Z) :
  array_like a -> 2 * Z.of_nat (List.length a) <= n < 2 ^ 53 ->
  slice_window a (of_Z n) = a.
Proof.
  intros Ha Hn.
  rewrite slice_window_of_Z by (try assumption; lia). cbv zeta.
  destruct (Z.ltb_spec (Z.of_nat (List.length a) - n) 0) as [H|H].
  - rewrite Z.max_r by lia. reflexivity.
  - replace (Z.of_nat (List.length a) - n) with 0 by lia. reflexivity.
Qed.

(** A sample count between the size of the store and twice that size
    selects only the last [n - s] samples: the negative start index counts
    from the end of the array. *)
Lemma slice_window_wraps (a : list Sample) (n : Z) :
  array_like a ->
  Z.of_nat (List.length a) < n < 2 * Z.of_nat (List.length a) ->
  slice_window a (of_Z n) =
    skipn (Z.to_nat (2 * Z.of_nat (List.length a) - n)) a /\
  Z.of_nat (List.length (slice_window a (of_Z n))) =
    n - Z.of_nat (List.length a).
Proof.
  intros Ha Hn. pose proof (array_like_prec a Ha) as Hs.
  change (2 ^ prec) with (2 ^ 53) in Hs.
  assert (2 ^ 32 < 2 ^ 53) by (apply Z.pow_lt_mono_r; lia).
  unfold array_like in Ha.
  rewrite slice_window_of_Z by (try assumption; lia). cbv zeta.
  replace (Z.of_nat (List.length a) - n <? 0) with true
    by (symmetry; apply Z.ltb_lt; lia).
  rewrite Z.max_l by lia.
  replace (Z.of_nat (List.length a) + (Z.of_nat (List.length a) - n))
    with (2 * Z.of_nat (List.length a) - n) by lia.
  split; [reflexivity|]. rewrite length_skipn. lia.
Qed.

(** The store of 12961 samples under the Week preset, and the store of 50
    samples under the Day preset. *)
Example scenario_week (a : list Sample) :
  Z.of_nat (List.length a) = 12961 ->
  slice_window a (of_Z 1009) = skipn (Z.to_nat (12961 - 1009)) a /\
  Z.of_nat (List.length (slice_window a (of_Z 1009))) = 1009.
Proof.
  intros Hl.
  assert (Ha : array_like a) by (unfold array_like; rewrite Hl; reflexivity).
  destruct (slice_window_within a 1009 Ha) as [E L]; [lia|].
  rewrite L. split; [|reflexivity].
  rewrite E. f_equal. lia.
Qed.

Example scenario_day_short (a : list Sample) :
  Z.of_nat (List.length a) = 50 -> slice_window a (of_Z 145) = a.
Proof.
  intros Hl. apply slice_window_whole.
  - unfold array_like. rewrite Hl. reflexivity.
  - rewrite Hl. lia.
Qed.

(** *** Statements that leave the sample count alone *)

Lemma keeps_ret {A : Type} (a : A) : keeps_window (ret a).
Proof. intros st. reflexivity. Qed.

Lemma keeps_throw {A : Type} (e : Exn) : keeps_window (@throw A e).
Proof. intros st. reflexivity. Qed.

Lemma keeps_get : keeps_window get.
Proof. intros st. reflexivity. Qed.

Lemma keeps_bind {A B : Type} (m : M A) (k : A -> M B) :
  keeps_window m -> (forall a, keeps_window (k a)) -> keeps_window (bind m k).
Proof.
  intros Hm Hk st. unfold bind. specialize (Hm st).
  destruct (m st) as [[a|e] st']; simpl in *.
  - rewrite Hk. exact Hm.
  - exact Hm.
Qed.

Lemma keeps_modify (f : State -> State) :
  (forall st, array_length (f st) = array_length st) ->
  keeps_window (modify f).
Proof. intros Hf st. apply Hf. Qed.

Lemma keeps_emit (ev : Event) : keeps_window (emit ev).
Proof. apply keeps_modify. reflexivity. Qed.

Lemma keeps_catch (m : M unit) (handler : Exn -> M unit) :
  keeps_window m -> (forall e, keeps_window (handler e)) ->
  keeps_window (catch m handler).
Proof.
  intros Hm Hh st. unfold catch. specialize (Hm st).
  destruct (m st) as [[a|e] st']; simpl in *.
  - exact Hm.
  - rewrite Hh. exact Hm.
Qed.

Lemma keeps_call {A : Type} (c : Completion A) : keeps_window (call c).
Proof. intros st. reflexivity. Qed.

Create HintDb window discriminated.

#[export] Hint Resolve keeps_ret keeps_throw keeps_get keeps_emit keeps_call
  : window.

Ltac keeps_step :=
  first
    [ apply keeps_bind; [ | intros ? ]
    | apply keeps_catch; [ | intros ? ]
    | apply keeps_modify; reflexivity
    | solve [ auto with window ] ].

Lemma log_events_app (evs : list Event) : forall st,
  page (log_events evs st) = (page st ++ evs)%list.
Proof.
  induction evs as [|ev evs IH]; intros st; simpl.
  - symmetry. apply app_nil_r.
  - unfold log_events in IH. rewrite IH. simpl.
    rewrite <- app_assoc. reflexivity.
Qed.


Lemma log_events_array_length (evs : list Event) : forall st,
  array_length (log_events evs st) = array_length st.
Proof.
  induction evs as [|ev evs IH]; intros st; [reflexivity|].
  simpl. unfold log_events in IH. rewrite IH. reflexivity.
Qed.

Section ScriptFacts.

Variable Date_parse : string -> number.
Variable Rickshaw : ChartLibrary.

Lemma keeps_latest (key : string) : keeps_window (latest Date_parse key).
Proof.
  intros st. unfold latest.
  destruct (temp_unpackData st); [|reflexivity].
  destruct (temp_parsedResponse st); reflexivity.
Qed.

Lemma keeps_addContents : keeps_window (addContents Date_parse Rickshaw).
Proof.
  unfold addContents.
  keeps_step; [keeps_step|].
  keeps_step; [destruct (graph a); keeps_step|].
  repeat first [ apply keeps_latest | keeps_step ].
Qed.

Lemma keeps_render : keeps_window (render Rickshaw).
Proof.
  unfold render. keeps_step; [keeps_step|].
  destruct (graph a); [|keeps_step].
  keeps_step; keeps_step.
Qed.

(** The sample count after [updateGraph] is the one its [switch] selects,
    whether or not the rest of the function completes. *)
Lemma updateGraph_array_length (timestamp : string) (st : State) :
  array_length (snd (updateGraph Date_parse Rickshaw timestamp st)) =
  switch_timestamp timestamp (array_length st).
Proof.
  unfold updateGraph.
  set (rest := bind clearGraph _).
  assert (Hrest : keeps_window rest).
  { unfold rest, clearGraph.
    keeps_step; [keeps_step|]. keeps_step; [keeps_step|].
    destruct (temp_parsedResponse a0); [|keeps_step].
    keeps_step; [keeps_step|].
    keeps_step; [destruct (temp_unpackData a0); keeps_step|].
    keeps_step; [keeps_step|].
    keeps_step; [apply keeps_addContents | apply keeps_render]. }
  unfold bind at 1. unfold modify at 1. rewrite Hrest. reflexivity.
Qed.

Lemma keeps_loadData (fetched : Completion (list Sample)) :
  keeps_window (loadData Date_parse Rickshaw fetched).
Proof.
  unfold loadData. keeps_step; [|keeps_step].
  destruct fetched as [parsedResponse|e]; [|keeps_step].
  unfold loadData_then.
  keeps_step; [keeps_step|]. keeps_step; [keeps_step|].
  keeps_step; [keeps_step|]. keeps_step; [keeps_step|].
  keeps_step; [apply keeps_addContents | apply keeps_render].
Qed.

(** *** The latest values *)

Lemma unpackData_length (array : list Sample) (key : string) :
  List.length (unpackData Date_parse array key) = List.length array.
Proof. unfold unpackData, Array_map. apply length_map. Qed.

Lemma unpackData_nth (array : list Sample) (key : string) (i : nat) :
  nth_error (unpackData Date_parse array key) i =
  option_map
    (fun obj => {| x := Date_parse (time obj); y := field obj key |})
    (nth_error array i).
Proof. unfold unpackData, Array_map. apply nth_error_map. Qed.

Lemma latest_value_last (a : list Sample) (obj : Sample) (key : string) :
  array_like (a ++ [obj])%list ->
  latest_value Date_parse (a ++ [obj])%list key = Normal (field obj key).
Proof.
  intros Ha. pose proof (array_like_prec _ Ha) as Hs.
  unfold latest_value, length_of.
  rewrite length_app in *. simpl List.length in *.
  rewrite sub_of_Z by (unfold prec in *; lia).
  rewrite Array_get_of_Z by lia.
  rewrite unpackData_nth.
  replace (Z.to_nat (Z.of_nat (List.length a + 1) - 1)) with (List.length a)
    by lia.
  rewrite nth_error_app2 by lia. rewrite Nat.sub_diag. reflexivity.
Qed.

Lemma latest_value_empty (key : string) :
  latest_value Date_parse [] key = Throw TypeError.
Proof. reflexivity. Qed.

(** *** The functions on a loaded store *)

(** The summary fields, once the widgets are set up. *)
Lemma addContents_loaded (st : State) (g : Graph)
    (a : list Sample) (obj : Sample) :
  graph st = Some g ->
  temp_parsedResponse st = Some (a ++ [obj])%list ->
  temp_unpackData st = true ->
  array_like (a ++ [obj])%list ->
  addContents Date_parse Rickshaw st =
    match widgets Rickshaw g with
    | Normal _ => (Normal tt, log_events (summary_events obj) st)
    | Throw e => (Throw e, st)
    end.
Proof.
  intros Hg Hs Hu Ha. unfold addContents.
  unfold bind at 1. unfold get at 1.
  unfold bind at 1. rewrite Hg. unfold call.
  destruct (widgets Rickshaw g) as [[]|e]; [|reflexivity].
  unfold bind, latest, emit, modify.
  repeat (cbn beta iota delta [temp_unpackData temp_parsedResponse log_event];
          rewrite ?Hu, ?Hs, ?latest_value_last by exact Ha).
  reflexivity.
Qed.

(** What [addContents] and [graph.render()] do once the chart is built. *)
Lemma chart_tail (st : State) (g : Graph) (a : list Sample) (obj : Sample) :
  graph st = Some g ->
  temp_parsedResponse st = Some (a ++ [obj])%list ->
  temp_unpackData st = true ->
  array_like (a ++ [obj])%list ->
  bind (addContents Date_parse Rickshaw) (fun _ => render Rickshaw) st =
    (fst (chart_outcome Rickshaw g obj),
     log_events (snd (chart_outcome Rickshaw g obj)) st).
Proof.
  intros Hg Hs Hu Ha. unfold bind at 1.
  rewrite (addContents_loaded st g a obj Hg Hs Hu Ha).
  unfold chart_outcome.
  destruct (widgets Rickshaw g) as [[]|e]; [|reflexivity].
  unfold render. unfold bind at 1. unfold get at 1.
  change (graph (log_events (summary_events obj) st)) with (graph st).
  rewrite Hg. unfold bind, call, emit, modify.
  destruct (rendering Rickshaw g) as [[]|e]; reflexivity.
Qed.

(** On a loaded, non-empty store [updateGraph] selects the sample count,
    clears the chart and rebuilds it from the window; what follows is the
    chart library's to decide. *)
Lemma updateGraph_loaded (timestamp : string) (st : State)
    (a : list Sample) (obj : Sample) :
  temp_parsedResponse st = Some (a ++ [obj])%list ->
  temp_unpackData st = true ->
  array_like (a ++ [obj])%list ->
  updateGraph Date_parse Rickshaw timestamp st =
    let n := switch_timestamp timestamp (array_length st) in
    let w := slice_window (a ++ [obj]) n in
    let g := chart_series Date_parse w in
    (fst (chart_outcome Rickshaw g obj),
     log_events (snd (chart_outcome Rickshaw g obj))
       (set_graph g
          (set_parsedResponse w
             (log_event ClearGraph (set_array_length n st))))).
Proof.
  intros Hs Hu Ha. cbv zeta.
  unfold updateGraph.
  unfold bind at 1. unfold modify at 1.
  unfold bind at 1. unfold clearGraph, emit at 1, modify at 1.
  unfold bind at 1. unfold get at 1.
  cbn [temp_parsedResponse temp_unpackData array_length log_event
       set_array_length].
  rewrite Hs, Hu.
  unfold bind at 1. unfold modify at 1.
  unfold bind at 1. unfold ret at 1.
  unfold bind at 1. unfold modify at 1.
  apply (chart_tail _ _ a obj);
    [reflexivity | exact Hs | exact Hu | exact Ha].
Qed.


(** *** [updateGraph] step by step *)

Lemma updateGraph_unfold (timestamp : string) (st : State) :
  updateGraph Date_parse Rickshaw timestamp st =
    let n := switch_timestamp timestamp (array_length st) in
    let st1 := log_event ClearGraph (set_array_length n st) in
    match temp_parsedResponse st with
    | None => (Throw TypeError, st1)
    | Some a =>
        let w := slice_window a n in
        if temp_unpackData st then
          bind (addContents Date_parse Rickshaw) (fun _ => render Rickshaw)
            (set_graph (chart_series Date_parse w) (set_parsedResponse w st1))
        else (Throw TypeError, set_parsedResponse w st1)
    end.
Proof.
  unfold updateGraph.
  unfold bind at 1. unfold modify at 1.
  unfold bind at 1. unfold clearGraph, emit at 1, modify at 1.
  unfold bind at 1. unfold get at 1.
  cbn [temp_parsedResponse temp_unpackData array_length log_event
       set_array_length].
  destruct (temp_parsedResponse st) as [a|]; [|reflexivity].
  unfold bind at 1. unfold modify at 1.
  unfold bind at 1.
  destruct (temp_unpackData st); reflexivity.
Qed.


(** *** The three outcomes of the custom prompt *)

Lemma customTimestamp_accept (person : string) (st : State) :
  lt (of_Z 0) (parseFloat person) = true ->
  lt (parseFloat person) (of_Z 2160) = true ->
  customTimestamp Date_parse Rickshaw (Some person) st =
    updateGraph Date_parse Rickshaw "last"
      (set_array_length (mul (parseFloat person) (of_Z 6))
         (set_hours (parseFloat person) st)).
Proof.
  intros H0 H1. unfold customTimestamp. cbn [ToString].
  rewrite (lt_not_NaN_r _ _ H0).
  rewrite (lt_not_le _ _ H0), (lt_not_ge _ _ H1). cbn [orb].
  reflexivity.
Qed.

(** ** Properties of the windowing logic *)

(** C2, as amended.  When the number [h] read from the prompt satisfies
    [0 < h < 2160], [customTimestamp] sets the sample count to the product
    [h * 6] as it is (the product is not floored), and a following
    [updateGraph('last')] reapplies that same value. *)
Theorem customTimestamp_in_range (person : string) (st : State) :
  lt (of_Z 0) (parseFloat person) = true ->
  lt (parseFloat person) (of_Z 2160) = true ->
  let st' := snd (customTimestamp Date_parse Rickshaw (Some person) st) in
  array_length st' = mul (parseFloat person) (of_Z 6) /\
  array_length (snd (updateGraph Date_parse Rickshaw "last" st')) =
    mul (parseFloat person) (of_Z 6).
Proof.
  intros H0 H1 st'.
  assert (E : array_length st' = mul (parseFloat person) (of_Z 6)).
  { unfold st'. rewrite customTimestamp_accept by assumption.
    rewrite updateGraph_array_length. reflexivity. }
  split; [exact E|].
  rewrite updateGraph_array_length. exact E.
Qed.

(** C3.  When the number [h] read from the prompt has [h <= 0] or
    [h >= 2160], [customTimestamp] only shows the out-of-range alert: the
    sample count, the store and the chart stay as they were, and a
    following [updateGraph('last')] reapplies the count of before. *)
Theorem customTimestamp_out_of_range (person : string) (st : State) :
  (le (parseFloat person) (of_Z 0) || ge (parseFloat person) (of_Z 2160))%bool
    = true ->
  let out_of_range :=
    Alert "Hours can't be less or equal to 0 or higher than 2160!" in
  customTimestamp Date_parse Rickshaw (Some person) st =
    (Normal tt, log_event out_of_range (set_hours (parseFloat person) st)) /\
  array_length (snd (customTimestamp Date_parse Rickshaw (Some person) st)) =
    array_length st /\
  graph (snd (customTimestamp Date_parse Rickshaw (Some person) st)) =
    graph st /\
  array_length
    (snd (updateGraph Date_parse Rickshaw "last"
            (snd (customTimestamp Date_parse Rickshaw (Some person) st)))) =
    array_length st.
Proof.
  intros H out_of_range.
  assert (E : customTimestamp Date_parse Rickshaw (Some person) st =
    (Normal tt, log_event out_of_range (set_hours (parseFloat person) st))).
  { unfold customTimestamp. cbn [ToString].
    assert (Hn : Number_isNaN (parseFloat person) = false).
    { apply orb_true_iff in H as [H|H];
        [exact (le_not_NaN_l _ _ H) | exact (ge_not_NaN_l _ _ H)]. }
    rewrite Hn, H. reflexivity. }
  rewrite updateGraph_array_length, E. repeat split.
Qed.

(** C4, as amended.  A cancelled prompt and an empty answer end
    [customTimestamp] at once, with no alert and the window state
    untouched.  A non-empty answer at whose head no number can be read
    (after white space and an optional sign it does not start with a digit,
    a dot and a digit, or [Infinity]) triggers the alert
    "Only use numbers!" and nothing else.  Every other answer starts with a
    number and is never refused as not being one, whatever follows the
    number: it goes on to the range check with the number read. *)
Theorem customTimestamp_not_a_number (st : State) :
  (customTimestamp Date_parse Rickshaw None st =
     (Normal tt, set_hours NaN st) /\
   customTimestamp Date_parse Rickshaw (Some "") st =
     (Normal tt, set_hours NaN st) /\
   same_window st (set_hours NaN st)) /\
  (forall person : string,
     person <> "" ->
     starts_number person = false ->
     let r := customTimestamp Date_parse Rickshaw (Some person) st in
     r = (Normal tt,
          log_event (Alert "Only use numbers!") (set_hours NaN st)) /\
     array_length (snd r) = array_length st /\
     graph (snd r) = graph st) /\
  (forall person : string,
     starts_number person = true ->
     let h := parseFloat person in
     Number_isNaN h = false /\
     customTimestamp Date_parse Rickshaw (Some person) st =
       if (le h (of_Z 0) || ge h (of_Z 2160))%bool
       then
         (Normal tt,
          log_event
            (Alert "Hours can't be less or equal to 0 or higher than 2160!")
            (set_hours h st))
       else
         updateGraph Date_parse Rickshaw "last"
           (set_array_length (mul h (of_Z 6)) (set_hours h st))).
Proof.
  split; [repeat split|]. split.
  - intros person Hne Hs r.
    assert (Hnan : Number_isNaN (parseFloat person) = true)
      by (rewrite parseFloat_NaN_starts, Hs; reflexivity).
    assert (E : r = (Normal tt,
                     log_event (Alert "Only use numbers!")
                       (set_hours NaN st))).
    { unfold r, customTimestamp. cbn [ToString]. rewrite Hnan.
      destruct (String.eqb_spec person "") as [->|_]; [congruence|].
      destruct (parseFloat person); try discriminate. reflexivity. }
    rewrite E. repeat split.
  - intros person Hs h.
    assert (Hnan : Number_isNaN h = false)
      by (unfold h; rewrite parseFloat_NaN_starts, Hs; reflexivity).
    split; [exact Hnan|].
    unfold customTimestamp. cbn [ToString]. fold h. rewrite Hnan.
    destruct (le h (of_Z 0) || ge h (of_Z 2160))%bool; reflexivity.
Qed.

(** C5.  Each of the four preset names sets the sample count to its
    constant, from any state, and doing it again gives the same count. *)
Theorem updateGraph_presets (st : State) :
  let count name st :=
    array_length (snd (updateGraph Date_parse Rickshaw name st)) in
  let twice name st :=
    array_length
      (snd (updateGraph Date_parse Rickshaw name
              (snd (updateGraph Date_parse Rickshaw name st)))) in
  (count "QuarterYear" st = of_Z 12961 /\ twice "QuarterYear" st = of_Z 12961) /\
  (count "Month" st = of_Z 4321 /\ twice "Month" st = of_Z 4321) /\
  (count "Week" st = of_Z 1009 /\ twice "Week" st = of_Z 1009) /\
  (count "Day" st = of_Z 145 /\ twice "Day" st = of_Z 145).
Proof.
  cbv beta zeta. rewrite !updateGraph_array_length. repeat split.
Qed.


(** C7, as amended.  After the initial load the sample count is the one
    the script started with: 1009 when [options.timeframe] is "Week", 4321
    when it is "Month", and 12961 (the quarter year) otherwise. *)
Theorem initial_window_from_options
    (options : Options) (fetched : Completion (list Sample)) :
  array_length
    (snd (loadData Date_parse Rickshaw fetched (script_start options))) =
    if (timeframe options =? "Week")%string then of_Z 1009
    else if (timeframe options =? "Month")%string then of_Z 4321
    else of_Z 12961.
Proof. rewrite keeps_loadData. reflexivity. Qed.

(** C8.  The latest value of a metric throws [TypeError], the only
    exception there is, on the empty array, and is the [y] of the point of
    the last sample on any other array. *)
Theorem latest_value_spec (a : list Sample) (key : string) :
  array_like a ->
  latest_value Date_parse a key =
    match rev a with
    | [] => Throw TypeError
    | obj :: _ =>
        Normal (y {| x := Date_parse (time obj); y := field obj key |})
    end.
Proof.
  intros Ha. destruct a as [|obj a _] using rev_ind.
  - reflexivity.
  - rewrite rev_app_distr. cbn [rev app y].
    apply latest_value_last. exact Ha.
Qed.

(** C9.  [unpackData] turns an array of samples into as many points, the
    i-th point being [{x: Date.parse(time), y: metric}] of the i-th sample,
    and each of the four series of the chart is that projection for its
    metric. *)
Theorem unpackData_projects (array : list Sample) (key : string) :
  List.length (unpackData Date_parse array key) = List.length array /\
  (forall i : nat,
     nth_error (unpackData Date_parse array key) i =
     option_map
       (fun obj => {| x := Date_parse (time obj); y := field obj key |})
       (nth_error array i)) /\
  map data (chart_series Date_parse array) =
    map (unpackData Date_parse array)
      ["humidity"; "lux"; "temperature"; "pressure"].
Proof.
  split; [apply unpackData_length|].
  split; [intros i; apply unpackData_nth | reflexivity].
Qed.


End ScriptFacts.

(** ** Closed instances *)

(** C1, where the code departs from it.  On a store of 100 samples the
    window of the Day preset (145 samples asked for) holds the last 45
    samples only, not the whole store: the start index [100 - 145] is
    negative and [slice] counts it from the end of the array. *)
Theorem slice_window_short_store :
  let st := example_loaded "QuarterYear" 100 in
  let st' := snd (updateGraph example_Date_parse example_Rickshaw "Day" st) in
  temp_parsedResponse st = Some (example_store 100) /\
  array_length st' = of_Z 145 /\
  slice_window (example_store 100) (of_Z 145) = skipn 55 (example_store 100) /\
  parsedResponse st' = Some (skipn 55 (example_store 100)) /\
  option_map (map (fun s => List.length (data s))) (graph st') =
    Some [45; 45; 45; 45]%nat.
Proof. vm_compute. repeat split. Qed.

(** C2 as stated fails: the answer "0.25" is in range, the floor of
    [0.25 * 6] is 1, but the sample count becomes 1.5 and the chart shows
    two points per series. *)
Lemma customTimestamp_quarter_hour :
  let h := parseFloat "0.25" in
  let st' :=
    snd (customTimestamp example_Date_parse example_Rickshaw (Some "0.25")
           (example_loaded "Week" 3)) in
  lt (of_Z 0) h = true /\ lt h (of_Z 2160) = true /\
  Math_floor (mul h (of_Z 6)) = of_Z 1 /\
  array_length st' <> Math_floor (mul h (of_Z 6)) /\
  option_map (map (fun s => List.length (data s))) (graph st') =
    Some [2; 2; 2; 2]%nat.
Proof. vm_compute. repeat split. discriminate. Qed.

Lemma customTimestamp_in_range_witness :
  lt (of_Z 0) (parseFloat "24") = true /\
  lt (parseFloat "24") (of_Z 2160) = true /\
  let st' :=
    snd (customTimestamp example_Date_parse example_Rickshaw (Some "24")
           (example_loaded "Week" 3)) in
  array_length st' = mul (parseFloat "24") (of_Z 6) /\
  array_length
    (snd (updateGraph example_Date_parse example_Rickshaw "last" st')) =
    mul (parseFloat "24") (of_Z 6).
Proof.
  split; [reflexivity|]. split; [reflexivity|].
  apply (customTimestamp_in_range example_Date_parse example_Rickshaw "24"
           (example_loaded "Week" 3)); reflexivity.
Defined.

Lemma customTimestamp_out_of_range_witness :
  (le (parseFloat "2160") (of_Z 0) || ge (parseFloat "2160") (of_Z 2160))%bool
    = true /\
  customTimestamp example_Date_parse example_Rickshaw (Some "2160")
    (example_loaded "Week" 3) =
    (Normal tt,
     log_event
       (Alert "Hours can't be less or equal to 0 or higher than 2160!")
       (set_hours (parseFloat "2160") (example_loaded "Week" 3))).
Proof.
  split; [reflexivity|].
  apply (customTimestamp_out_of_range example_Date_parse example_Rickshaw
           "2160" (example_loaded "Week" 3)).
  reflexivity.
Defined.

(** C4 as stated fails: the answer "24 hours" is not empty and not a
    number, yet it is not refused: no alert is shown, the sample count
    becomes 144 and the chart is drawn again. *)
Lemma customTimestamp_text_after_number :
  let st := example_loaded "Week" 3 in
  let r :=
    customTimestamp example_Date_parse example_Rickshaw (Some "24 hours")
      st in
  complete_literal "24 hours" = false /\
  fst r = Normal tt /\
  array_length (snd r) = of_Z 144 /\
  array_length (snd r) <> array_length st /\
  page (snd r) =
    (page st ++ ClearGraph :: summary_events (example_sample 2) ++
     [Render (chart_series example_Date_parse (example_store 3))])%list.
Proof. vm_compute. repeat split. discriminate. Qed.

(** An accepted answer can leave the window empty: for "0.00000000000000001"
    the start index [3 - 6e-17] of the [slice] is 3, the chart has no
    points, and the exception of the chart library escapes
    [customTimestamp]. *)
Lemma customTimestamp_empty_window :
  let st := example_loaded "Week" 3 in
  let r :=
    customTimestamp example_Date_parse example_Rickshaw
      (Some "0.00000000000000001") st in
  parsedResponse (snd r) = Some [] /\
  fst r = Throw TypeError /\
  page (snd r) = (page st ++ [ClearGraph])%list.
Proof. vm_compute. repeat split. Qed.

Lemma customTimestamp_not_a_number_witness :
  "abc" <> "" /\
  starts_number "abc" = false /\
  customTimestamp example_Date_parse example_Rickshaw (Some "abc")
    (example_loaded "Week" 3) =
    (Normal tt,
     log_event (Alert "Only use numbers!")
       (set_hours NaN (example_loaded "Week" 3))) /\
  starts_number "24 hours" = true /\
  Number_isNaN (parseFloat "24 hours") = false.
Proof.
  split; [discriminate|]. split; [reflexivity|].
  destruct (customTimestamp_not_a_number example_Date_parse example_Rickshaw
              (example_loaded "Week" 3)) as (_ & H2 & H3).
  split; [apply (H2 "abc"); [discriminate | reflexivity]|].
  split; [reflexivity|].
  apply (H3 "24 hours"). reflexivity.
Defined.



(** C7 as stated fails: when the page sets [options.timeframe] to "Week",
    the sample count after the initial load is 1009, not 12961. *)
Lemma initial_window_week :
  let r :=
    loadData example_Date_parse example_Rickshaw (Normal (example_store 3))
      (script_start (example_options "Week")) in
  fst r = Normal tt /\
  array_length (snd r) = of_Z 1009 /\
  array_length (snd r) <> of_Z 12961.
Proof. vm_compute. repeat split. discriminate. Qed.

Lemma latest_value_spec_witness :
  array_like (example_store 2) /\
  latest_value example_Date_parse (example_store 2) "humidity" =
    Normal (Num (of_Z 1)).
Proof.
  split; [vm_compute; reflexivity|].
  apply (latest_value_spec example_Date_parse (example_store 2) "humidity").
  vm_compute. reflexivity.
Defined.


(** ** Further properties of the script *)

(** *** Statements that leave a part of the globals alone *)

Section Preserves.

Context {B : Type} (proj : State -> B).

Lemma preserves_ret {A : Type} (a : A) : preserves proj (ret a).
Proof. intros st. reflexivity. Qed.

Lemma preserves_throw {A : Type} (e : Exn) : preserves proj (@throw A e).
Proof. intros st. reflexivity. Qed.

Lemma preserves_get : preserves proj get.
Proof. intros st. reflexivity. Qed.

Lemma preserves_call {A : Type} (c : Completion A) : preserves proj (call c).
Proof. intros st. reflexivity. Qed.

Lemma preserves_bind {A C : Type} (m : M A) (k : A -> M C) :
  preserves proj m -> (forall a, preserves proj (k a)) ->
  preserves proj (bind m k).
Proof.
  intros Hm Hk st. unfold bind. specialize (Hm st).
  destruct (m st) as [[a|e] st']; simpl in *.
  - rewrite Hk. exact Hm.
  - exact Hm.
Qed.

Lemma preserves_modify (f : State -> State) :
  (forall st, proj (f st) = proj st) -> preserves proj (modify f).
Proof. intros Hf st. apply Hf. Qed.

Lemma preserves_catch (m : M unit) (handler : Exn -> M unit) :
  preserves proj m -> (forall e, preserves proj (handler e)) ->
  preserves proj (catch m handler).
Proof.
  intros Hm Hh st. unfold catch. specialize (Hm st).
  destruct (m st) as [[a|e] st']; simpl in *.
  - exact Hm.
  - rewrite Hh. exact Hm.
Qed.

End Preserves.

Ltac preserves_step :=
  first
    [ apply preserves_bind; [ | intros ? ]
    | apply preserves_ret
    | apply preserves_throw
    | apply preserves_get
    | apply preserves_call
    | apply preserves_modify; reflexivity ].

Section PageFacts.

Variable Date_parse : string -> number.
Variable Rickshaw : ChartLibrary.

Lemma preserves_latest {B : Type} (proj : State -> B) (key : string) :
  preserves proj (latest Date_parse key).
Proof.
  intros st. unfold latest.
  destruct (temp_unpackData st); [|reflexivity].
  destruct (temp_parsedResponse st); reflexivity.
Qed.

Lemma preserves_addContents {B : Type} (proj : State -> B) :
  (forall ev st, proj (log_event ev st) = proj st) ->
  preserves proj (addContents Date_parse Rickshaw).
Proof.
  intros Hlog. unfold addContents, emit.
  preserves_step; [preserves_step|].
  preserves_step; [destruct (graph a); preserves_step|].
  repeat first [ apply preserves_latest
               | apply preserves_modify; intros; apply Hlog
               | preserves_step ].
Qed.

Lemma preserves_render {B : Type} (proj : State -> B) :
  (forall ev st, proj (log_event ev st) = proj st) ->
  preserves proj (render Rickshaw).
Proof.
  intros Hlog. unfold render, emit. preserves_step; [preserves_step|].
  destruct (graph a); [|preserves_step].
  preserves_step; [preserves_step|].
  apply preserves_modify. intros; apply Hlog.
Qed.

Lemma preserves_store_updateGraph (timestamp : string) :
  preserves store (updateGraph Date_parse Rickshaw timestamp).
Proof.
  unfold updateGraph, clearGraph, emit.
  preserves_step; [preserves_step|].
  preserves_step; [preserves_step|].
  preserves_step; [preserves_step|].
  destruct (temp_parsedResponse a1); [|preserves_step].
  preserves_step; [preserves_step|].
  preserves_step; [destruct (temp_unpackData a1); preserves_step|].
  preserves_step; [preserves_step|].
  preserves_step; [apply preserves_addContents | apply preserves_render];
    reflexivity.
Qed.

Lemma preserves_store_customTimestamp (person : option string) :
  preserves store (customTimestamp Date_parse Rickshaw person).
Proof.
  unfold customTimestamp, emit.
  preserves_step; [preserves_step|].
  destruct (Number_isNaN _).
  - destruct person as [s|]; [|preserves_step].
    destruct (s =? "")%string; preserves_step.
  - destruct (le _ _ || ge _ _)%bool; [preserves_step|].
    preserves_step; [preserves_step|].
    apply preserves_store_updateGraph.
Qed.

(** X1.  Neither [updateGraph] nor [customTimestamp] ever writes the
    fetched data: whatever the argument and whatever the outcome, the
    globals [temp_parsedResponse] and [temp_unpackData] are afterwards what
    they were before. *)
Theorem window_changes_keep_store
    (timestamp : string) (person : option string) (st : State) :
  let st1 := snd (updateGraph Date_parse Rickshaw timestamp st) in
  let st2 := snd (customTimestamp Date_parse Rickshaw person st) in
  (temp_parsedResponse st1 = temp_parsedResponse st /\
   temp_unpackData st1 = temp_unpackData st) /\
  (temp_parsedResponse st2 = temp_parsedResponse st /\
   temp_unpackData st2 = temp_unpackData st).
Proof.
  cbv zeta.
  pose proof (preserves_store_updateGraph timestamp st) as H1.
  pose proof (preserves_store_customTimestamp person st) as H2.
  unfold store in H1, H2.
  injection H1 as E1 E2. injection H2 as E3 E4.
  repeat split; assumption.
Qed.


(** The chart and the sample count after [updateGraph] on a loaded store,
    whether or not the summary can be filled. *)
Lemma updateGraph_chart (timestamp : string) (st : State) (a : list Sample) :
  temp_parsedResponse st = Some a ->
  temp_unpackData st = true ->
  let n := switch_timestamp timestamp (array_length st) in
  chart (snd (updateGraph Date_parse Rickshaw timestamp st)) =
    (Some (chart_series Date_parse (slice_window a n)),
     Some (slice_window a n)).
Proof.
  intros Hs Hu n. rewrite updateGraph_unfold. cbv zeta. rewrite Hs, Hu.
  fold n.
  assert (Ht : preserves chart
                 (bind (addContents Date_parse Rickshaw)
                    (fun _ => render Rickshaw))).
  { apply preserves_bind;
      [apply preserves_addContents | intros _; apply preserves_render];
      reflexivity. }
  rewrite Ht. reflexivity.
Qed.


(** X2.  Nothing escapes [loadData]: whatever the fetch gives, the chain
    completes, the [catch] of line 101 taking every exception; and when the
    fetch or the parsing fails, the error is logged and the globals are
    left as they were. *)
Theorem loadData_never_throws
    (fetched : Completion (list Sample)) (e : Exn) (st : State) :
  fst (loadData Date_parse Rickshaw fetched st) = Normal tt /\
  loadData Date_parse Rickshaw (Throw e) st =
    (Normal tt, log_event (ConsoleLog e) st).
Proof.
  split; [|reflexivity].
  unfold loadData, catch.
  destruct (match fetched with
            | Normal parsedResponse =>
                loadData_then Date_parse Rickshaw parsedResponse
            | Throw e0 => throw e0
            end st) as [[[]|e0] st']; reflexivity.
Qed.

Lemma lt_le (x y : number) : lt x y = true -> le x y = true.
Proof.
  unfold lt, le, SFltb, SFleb.
  destruct (SFcompare x y) as [[ | | ]|]; congruence.
Qed.

(** The chart and the store after [loadData], whether or not the summary
    and the render complete. *)
Lemma loadData_chart (a : list Sample) (st : State) :
  let st' := snd (loadData Date_parse Rickshaw (Normal a) st) in
  graph st' =
    Some (chart_series Date_parse (slice_window a (array_length st))) /\
  store st' = (Some a, true).
Proof.
  set (proj := fun s : State => (graph s, store s)).
  assert (H : proj (snd (loadData Date_parse Rickshaw (Normal a) st)) =
              (Some (chart_series Date_parse
                       (slice_window a (array_length st))),
               (Some a, true))).
  { unfold loadData, catch, loadData_then.
    unfold bind at 1. unfold modify at 1.
    unfold bind at 1. unfold get at 1.
    unfold bind at 1. unfold modify at 1.
    unfold bind at 1. unfold modify at 1.
    cbn [array_length set_temp_parsedResponse].
    set (st1 := set_graph _ _).
    assert (Hp : preserves proj
                   (bind (addContents Date_parse Rickshaw)
                      (fun _ => render Rickshaw)))
      by (apply preserves_bind;
          [apply preserves_addContents | intros _; apply preserves_render];
          reflexivity).
    specialize (Hp st1).
    destruct (bind (addContents Date_parse Rickshaw)
                (fun _ => render Rickshaw) st1)
      as [[[]|e] st2]; cbn [snd] in *.
    - rewrite Hp. reflexivity.
    - unfold emit, modify. cbn [snd].
      change (proj (log_event (ConsoleLog e) st2)) with (proj st2).
      rewrite Hp. reflexivity. }
  cbv zeta. unfold proj in H. injection H as E1 E2 E3.
  split; [exact E1 | unfold store; rewrite E2, E3; reflexivity].
Qed.



(** *** Once loaded: whole sample counts *)

Lemma ready_store (st st' : State) :
  store st' = store st -> ready st -> ready st'.
Proof.
  unfold store, ready. intros E (Hu & a & obj & Hs & Ha).
  injection E as E1 E2. rewrite E2, E1. split; [exact Hu|].
  exists a, obj. split; assumption.
Qed.

(** The window of a whole sample count of at least one sample, on a store
    that is not empty, is not empty. *)
Lemma slice_window_points (a : list Sample) (obj : Sample) (n : Z) :
  array_like (a ++ [obj])%list -> 1 <= n < 2 ^ 53 ->
  slice_window (a ++ [obj]) (of_Z n) <> [].
Proof.
  intros Ha Hn E. apply (f_equal (@List.length Sample)) in E.
  rewrite slice_window_of_Z in E by (assumption || lia).
  cbv zeta in E. rewrite length_skipn in E. cbn [List.length] in E.
  set (s := Z.of_nat (List.length (a ++ [obj])%list)) in *.
  assert (Hs : 1 <= s)
    by (unfold s; rewrite length_app; cbn [List.length]; lia).
  destruct (Z.ltb_spec (s - n) 0); unfold s in *; lia.
Qed.

Lemma chart_series_points (w : list Sample) :
  w <> [] -> has_points (chart_series Date_parse w) = true.
Proof.
  intros Hw. unfold has_points, chart_series. cbn [forallb data].
  rewrite !unpackData_length.
  destruct w; [congruence | reflexivity].
Qed.

Lemma chart_outcome_points (w : list Sample) (obj : Sample) :
  completes_on_points Rickshaw -> w <> [] ->
  chart_outcome Rickshaw (chart_series Date_parse w) obj =
    (Normal tt,
     (summary_events obj ++ [Render (chart_series Date_parse w)])%list).
Proof.
  intros Hc Hw.
  destruct (Hc _ (chart_series_points w Hw)) as [H1 H2].
  unfold chart_outcome. rewrite H1, H2. reflexivity.
Qed.

Lemma whole_switch_timestamp (timestamp : string) (st : State) :
  whole_count st ->
  exists n : Z,
    1 <= n < 2 ^ 53 /\
    switch_timestamp timestamp (array_length st) = of_Z n.
Proof.
  intros Hw. unfold switch_timestamp.
  destruct (timestamp =? "QuarterYear")%string;
    [exists 12961; split; [lia | reflexivity]|].
  destruct (timestamp =? "Month")%string;
    [exists 4321; split; [lia | reflexivity]|].
  destruct (timestamp =? "Week")%string;
    [exists 1009; split; [lia | reflexivity]|].
  destruct (timestamp =? "Day")%string;
    [exists 145; split; [lia | reflexivity]|].
  destruct (timestamp =? "last")%string; exact Hw.
Qed.

Lemma whole_updateGraph (timestamp : string) (st : State) :
  completes_on_points Rickshaw -> ready st -> whole_count st ->
  fst (updateGraph Date_parse Rickshaw timestamp st) = Normal tt /\
  ready (snd (updateGraph Date_parse Rickshaw timestamp st)) /\
  whole_count (snd (updateGraph Date_parse Rickshaw timestamp st)).
Proof.
  intros Hc Hr Hw.
  destruct (whole_switch_timestamp timestamp st Hw) as (n & Hn & En).
  split; [|split].
  - destruct Hr as (Hu & a & obj & Hs & Ha).
    rewrite (updateGraph_loaded Date_parse Rickshaw timestamp st a obj
               Hs Hu Ha).
    cbv zeta. cbn [fst]. rewrite En.
    rewrite chart_outcome_points;
      [reflexivity | exact Hc | apply slice_window_points; assumption].
  - apply (ready_store st); [apply preserves_store_updateGraph | exact Hr].
  - exists n. split; [exact Hn|].
    rewrite updateGraph_array_length. exact En.
Qed.

Lemma whole_customTimestamp (person : option string) (st : State) :
  completes_on_points Rickshaw -> ready st -> whole_count st ->
  whole_action (Answer person) = true ->
  fst (customTimestamp Date_parse Rickshaw person st) = Normal tt /\
  ready (snd (customTimestamp Date_parse Rickshaw person st)) /\
  whole_count (snd (customTimestamp Date_parse Rickshaw person st)).
Proof.
  intros Hc Hr Hw Ha.
  assert (Hst : ready (snd (customTimestamp Date_parse Rickshaw person st)))
    by (apply (ready_store st);
        [apply preserves_store_customTimestamp | exact Hr]).
  assert (Hkeep : forall ev h,
            customTimestamp Date_parse Rickshaw person st =
              (Normal tt, log_events ev (set_hours h st)) ->
            fst (customTimestamp Date_parse Rickshaw person st) = Normal tt /\
            ready (snd (customTimestamp Date_parse Rickshaw person st)) /\
            whole_count (snd (customTimestamp Date_parse Rickshaw person st))).
  { intros ev h E. split; [rewrite E; reflexivity|]. split; [exact Hst|].
    rewrite E. cbn [snd]. unfold whole_count.
    rewrite (log_events_array_length ev). exact Hw. }
  destruct person as [d|]; [|apply (Hkeep [] NaN); reflexivity].
  cbn [whole_action] in Ha. apply andb_true_iff in Ha as [Hd Hb].
  apply Z.ltb_lt in Hb.
  destruct (String.eqb_spec d "") as [->|Hne];
    [apply (Hkeep [] NaN); reflexivity|].
  assert (E : parseFloat d = of_Z (MV_digits d))
    by (apply parseFloat_digits; assumption).
  assert (H0 : 0 <= MV_digits d)
    by (apply MV_digits_from_nonneg; [exact Hd | lia]).
  destruct (Z.eq_dec (MV_digits d) 0) as [Hz|Hz].
  { apply (Hkeep [Alert
             "Hours can't be less or equal to 0 or higher than 2160!"]
             (of_Z (MV_digits d))).
    unfold customTimestamp. cbn [ToString]. rewrite E, Hz. reflexivity. }
  destruct (Z.lt_ge_cases (MV_digits d) 2160) as [Hlt|Hge].
  - assert (Hp : 2160 < 2 ^ prec) by reflexivity.
    assert (L0 : lt (of_Z 0) (parseFloat d) = true)
      by (rewrite E; apply lt_of_Z; lia).
    assert (L1 : lt (parseFloat d) (of_Z 2160) = true)
      by (rewrite E; apply lt_of_Z; lia).
    assert (Em : mul (parseFloat d) (of_Z 6) = of_Z (6 * MV_digits d)).
    { rewrite E, mul_of_Z; [f_equal; lia | lia | unfold prec; lia | ].
      assert (2160 * 6 < 2 ^ prec) by reflexivity. lia. }
    split; [|split; [exact Hst|]];
      rewrite (customTimestamp_accept Date_parse Rickshaw d st L0 L1), Em.
    + apply whole_updateGraph; [exact Hc | | ].
      * apply (ready_store st); [reflexivity | exact Hr].
      * exists (6 * MV_digits d). split; [lia | reflexivity].
    + apply whole_updateGraph; [exact Hc | | ].
      * apply (ready_store st); [reflexivity | exact Hr].
      * exists (6 * MV_digits d). split; [lia | reflexivity].
  - apply (Hkeep [Alert
             "Hours can't be less or equal to 0 or higher than 2160!"]
             (of_Z (MV_digits d))).
    assert (Hr' : (le (of_Z (MV_digits d)) (of_Z 0)
                   || ge (of_Z (MV_digits d)) (of_Z 2160))%bool = true).
    { apply orb_true_iff. right. unfold ge.
      destruct (Z.eq_dec (MV_digits d) 2160) as [->|Hn]; [reflexivity|].
      apply (lt_le (of_Z 2160)). apply lt_of_Z; unfold prec; lia. }
    unfold customTimestamp. cbn [ToString]. rewrite E.
    assert (Hn : Number_isNaN (of_Z (MV_digits d)) = false).
    { apply orb_true_iff in Hr' as [H|H];
        [exact (le_not_NaN_l _ _ H) | exact (ge_not_NaN_l _ _ H)]. }
    rewrite Hn, Hr'. reflexivity.
Qed.

Lemma whole_perform_all (acts : list Action) : forall st,
  completes_on_points Rickshaw -> ready st -> whole_count st ->
  forallb whole_action acts = true ->
  fst (perform_all Date_parse Rickshaw acts st) = Normal tt /\
  store (snd (perform_all Date_parse Rickshaw acts st)) = store st.
Proof.
  induction acts as [|act acts IH]; intros st Hc Hr Hw Ha.
  - split; reflexivity.
  - cbn [forallb] in Ha. apply andb_true_iff in Ha as [Hact Hacts].
    cbn [perform_all]. unfold bind.
    assert (H : fst (perform Date_parse Rickshaw act st) = Normal tt /\
                ready (snd (perform Date_parse Rickshaw act st)) /\
                whole_count (snd (perform Date_parse Rickshaw act st)) /\
                store (snd (perform Date_parse Rickshaw act st)) = store st).
    { destruct act as [t|p]; cbn [perform].
      - destruct (whole_updateGraph t st Hc Hr Hw) as (H1 & H2 & H3).
        repeat (split; [assumption|]).
        apply preserves_store_updateGraph.
      - destruct (whole_customTimestamp p st Hc Hr Hw Hact)
          as (H1 & H2 & H3).
        repeat (split; [assumption|]).
        apply preserves_store_customTimestamp. }
    destruct (perform Date_parse Rickshaw act st) as [c st'].
    cbn [fst snd] in H. destruct H as (H1 & H2 & H3 & H4). subst c.
    destruct (IH st' Hc H2 H3 Hacts) as (H5 & H6).
    split; [exact H5|]. rewrite H6. exact H4.
Qed.

(** X5.  Once a non-empty response has been loaded with a whole sample
    count of at least one sample, and provided the chart library completes
    on charts whose series have points, every sequence of button presses,
    cancelled prompts and answers written in decimal digits completes
    without an exception, and the store is still the loaded response at
    the end. *)
Theorem loaded_page_never_throws
    (a : list Sample) (obj : Sample) (st : State) (acts : list Action) :
  completes_on_points Rickshaw ->
  array_like (a ++ [obj])%list ->
  whole_count st ->
  forallb whole_action acts = true ->
  let st0 :=
    snd (loadData Date_parse Rickshaw (Normal (a ++ [obj])%list) st) in
  fst (perform_all Date_parse Rickshaw acts st0) = Normal tt /\
  temp_parsedResponse (snd (perform_all Date_parse Rickshaw acts st0)) =
    Some (a ++ [obj])%list.
Proof.
  intros Hc Ha Hw Hacts st0.
  destruct (loadData_chart (a ++ [obj])%list st) as [_ Hst].
  fold st0 in Hst.
  assert (Hr : ready st0).
  { unfold store in Hst. injection Hst as E1 E2.
    split; [exact E2|]. exists a, obj. split; [exact E1 | exact Ha]. }
  assert (Hw0 : whole_count st0).
  { unfold whole_count, st0. rewrite keeps_loadData. exact Hw. }
  destruct (whole_perform_all acts st0 Hc Hr Hw0 Hacts) as (H1 & H2).
  split; [exact H1|].
  rewrite Hst in H2. unfold store in H2. injection H2 as E _. exact E.
Qed.

(** *** The window *)

Lemma relative_index_range (len : Z) (r : ExtInt) :
  0 <= len -> 0 <= relative_index len r <= len.
Proof.
  intros H. destruct r as [|z|]; simpl; try lia.
  destruct (Z.ltb_spec z 0); lia.
Qed.

Lemma window_start_le (a : list Sample) (array_length : number) :
  (window_start a array_length <= List.length a)%nat.
Proof.
  unfold window_start.
  pose proof (relative_index_range (Z.of_nat (List.length a))
    (ToIntegerOrInfinity (sub (length_of a) array_length)) ltac:(lia)).
  lia.
Qed.

Lemma slice_window_skipn (a : list Sample) (array_length : number) :
  array_like a ->
  slice_window a array_length = skipn (window_start a array_length) a.
Proof.
  intros Ha. pose proof (array_like_prec a Ha) as Hs.
  pose proof (window_start_le a array_length) as Hk.
  unfold window_start in *.
  unfold slice_window, Array_slice.
  change (ToIntegerOrInfinity (length_of a))
    with (ToIntegerOrInfinity (of_Z (Z.of_nat (List.length a)))).
  rewrite (ToIntegerOrInfinity_of_Z (Z.of_nat (List.length a))) by lia.
  cbv zeta. set (s := Z.of_nat (List.length a)) in *.
  set (k := relative_index s
              (ToIntegerOrInfinity (sub (length_of a) array_length))) in *.
  replace (relative_index s (Fin s)) with s
    by (simpl; destruct (Z.ltb_spec s 0); lia).
  apply firstn_all2. rewrite length_skipn. unfold s in *. lia.
Qed.

(** X6.  Whatever the sample count is (an integer, a fraction, NaN, an
    infinity), the window is a suffix of the store: the samples from some
    index [k] up to the most recent one, in their order. *)
Theorem slice_window_suffix (a : list Sample) (array_length : number) :
  array_like a ->
  let k := window_start a array_length in
  (k <= List.length a)%nat /\
  slice_window a array_length = skipn k a /\
  List.length (slice_window a array_length) = (List.length a - k)%nat.
Proof.
  intros Ha k. split; [apply window_start_le|].
  rewrite (slice_window_skipn a array_length Ha). fold k.
  split; [reflexivity | apply length_skipn].
Qed.

(** X7.  Projecting the window is windowing the projection: every series
    of the chart built from the window is the series of the full store
    with its first [k] points dropped. *)
Theorem unpackData_window
    (a : list Sample) (array_length : number) (key : string) :
  array_like a ->
  let k := window_start a array_length in
  unpackData Date_parse (slice_window a array_length) key =
    skipn k (unpackData Date_parse a key) /\
  chart_series Date_parse (slice_window a array_length) =
    map (fun s => {| name := name s; data := skipn k (data s) |})
      (chart_series Date_parse a).
Proof.
  intros Ha k. rewrite (slice_window_skipn a array_length Ha). fold k.
  unfold chart_series, unpackData, Array_map. cbn [map name data].
  rewrite !skipn_map. split; reflexivity.
Qed.

(** X8.  The size of the window for an integer sample count [n] on a store
    of [s] samples: [n] when [n <= s], [n - s] when [s < n < 2s], and [s]
    when [n >= 2s]. *)
Theorem slice_window_size (a : list Sample) (n : Z) :
  array_like a -> 0 <= n < 2 ^ 53 ->
  let s := Z.of_nat (List.length a) in
  Z.of_nat (List.length (slice_window a (of_Z n))) =
    if n <=? s then n else if n <? 2 * s then n - s else s.
Proof.
  intros Ha Hn s.
  rewrite slice_window_of_Z by assumption. cbv zeta. fold s.
  rewrite length_skipn.
  destruct (Z.leb_spec n s) as [H1|H1].
  - replace (s - n <? 0) with false by (symmetry; apply Z.ltb_ge; lia).
    unfold s in *. lia.
  - replace (s - n <? 0) with true by (symmetry; apply Z.ltb_lt; lia).
    destruct (Z.ltb_spec n (2 * s)) as [H2|H2]; unfold s in *; lia.
Qed.

(** *** The chart *)

Lemma chart_series_lengths (w : list Sample) :
  map (fun s => List.length (data s)) (chart_series Date_parse w) =
  repeat (List.length w) 4.
Proof.
  unfold chart_series. cbn [map data repeat].
  rewrite !unpackData_length. reflexivity.
Qed.

(** X9.  When [updateGraph] selects an integer sample count [n] that the
    store can serve, the chart is built from exactly the last [n] samples:
    each of the four series has [n] points. *)
Theorem updateGraph_window_within
    (timestamp : string) (st : State) (a : list Sample) (n : Z) :
  temp_parsedResponse st = Some a ->
  temp_unpackData st = true ->
  array_like a ->
  switch_timestamp timestamp (array_length st) = of_Z n ->
  0 <= n <= Z.of_nat (List.length a) ->
  let st' := snd (updateGraph Date_parse Rickshaw timestamp st) in
  let w := skipn (List.length a - Z.to_nat n) a in
  parsedResponse st' = Some w /\
  graph st' = Some (chart_series Date_parse w) /\
  map (fun s => List.length (data s)) (chart_series Date_parse w) =
    repeat (Z.to_nat n) 4.
Proof.
  intros Hs Hu Ha Hsw Hn st' w.
  pose proof (updateGraph_chart timestamp st a Hs Hu) as Hc.
  cbv zeta in Hc. rewrite Hsw in Hc.
  destruct (slice_window_within a n Ha Hn) as [Ew El].
  rewrite Ew in Hc. fold w in Hc. fold st' in Hc.
  unfold chart in Hc. injection Hc as Eg Ep.
  split; [exact Ep|]. split; [exact Eg|].
  rewrite chart_series_lengths. f_equal.
  unfold w. rewrite <- Ew. exact El.
Qed.

(** X10.  [updateGraph('last')] reproduces the current chart: after any
    [updateGraph] on a loaded store, calling it with 'last' leaves the
    sample count, the chart and its window as they are. *)
Theorem updateGraph_last_again
    (timestamp : string) (st : State) (a : list Sample) :
  temp_parsedResponse st = Some a ->
  temp_unpackData st = true ->
  let st1 := snd (updateGraph Date_parse Rickshaw timestamp st) in
  let st2 := snd (updateGraph Date_parse Rickshaw "last" st1) in
  array_length st2 = array_length st1 /\
  graph st2 = graph st1 /\
  parsedResponse st2 = parsedResponse st1.
Proof.
  intros Hs Hu st1 st2.
  pose proof (preserves_store_updateGraph timestamp st) as Hst.
  fold st1 in Hst. unfold store in Hst. injection Hst as Hs1 Hu1.
  rewrite Hs in Hs1. rewrite Hu in Hu1.
  pose proof (updateGraph_chart timestamp st a Hs Hu) as Hc1.
  pose proof (updateGraph_chart "last" st1 a Hs1 Hu1) as Hc2.
  cbv zeta in Hc1, Hc2. fold st1 in Hc1. fold st2 in Hc2.
  assert (Hn1 : array_length st1 = switch_timestamp timestamp (array_length st))
    by apply updateGraph_array_length.
  assert (Hn2 : array_length st2 = array_length st1)
    by (unfold st2; rewrite updateGraph_array_length; reflexivity).
  change (switch_timestamp "last" (array_length st1))
    with (array_length st1) in Hc2.
  rewrite Hn1 in Hc2. rewrite <- Hc1 in Hc2.
  unfold chart in Hc2. injection Hc2 as Eg Ep.
  split; [exact Hn2|]. split; assumption.
Qed.

(** X11.  The chart of a preset does not depend on what was selected
    before: from two states with the same store, [updateGraph] with the
    same preset gives the same sample count, window and chart. *)
Theorem updateGraph_preset_forgets
    (timestamp : string) (st st' : State) (a : list Sample) :
  is_preset timestamp = true ->
  temp_parsedResponse st = Some a -> temp_unpackData st = true ->
  temp_parsedResponse st' = Some a -> temp_unpackData st' = true ->
  let r := snd (updateGraph Date_parse Rickshaw timestamp st) in
  let r' := snd (updateGraph Date_parse Rickshaw timestamp st') in
  array_length r = array_length r' /\
  graph r = graph r' /\
  parsedResponse r = parsedResponse r'.
Proof.
  intros Hp Hs Hu Hs' Hu' r r'.
  assert (Hsw : switch_timestamp timestamp (array_length st) =
                switch_timestamp timestamp (array_length st')).
  { unfold switch_timestamp. unfold is_preset in Hp.
    destruct (timestamp =? "QuarterYear")%string; [reflexivity|].
    destruct (timestamp =? "Month")%string; [reflexivity|].
    destruct (timestamp =? "Week")%string; [reflexivity|].
    destruct (timestamp =? "Day")%string; [reflexivity|].
    discriminate Hp. }
  pose proof (updateGraph_chart timestamp st a Hs Hu) as Hc.
  pose proof (updateGraph_chart timestamp st' a Hs' Hu') as Hc'.
  cbv zeta in Hc, Hc'. fold r in Hc. fold r' in Hc'.
  rewrite <- Hsw in Hc'. rewrite <- Hc in Hc'.
  unfold chart in Hc'. injection Hc' as Eg Ep.
  split; [|split; [symmetry; exact Eg | symmetry; exact Ep]].
  unfold r, r'. rewrite !updateGraph_array_length. exact Hsw.
Qed.

(** X12.  On a loaded, non-empty store every [updateGraph] touches the
    page in this order: the chart is cleared, the widgets of the chart
    library are set up, the four summary fields are filled from the last
    sample of the full store (whatever the window), and the chart built
    from the window is rendered.  An exception of the chart library ends
    the call where it is thrown; when the widgets and the render complete,
    the call completes. *)
Theorem updateGraph_trace
    (timestamp : string) (st : State) (a : list Sample) (obj : Sample) :
  temp_parsedResponse st = Some (a ++ [obj])%list ->
  temp_unpackData st = true ->
  array_like (a ++ [obj])%list ->
  let r := updateGraph Date_parse Rickshaw timestamp st in
  let g :=
    chart_series Date_parse
      (slice_window (a ++ [obj])
         (switch_timestamp timestamp (array_length st))) in
  (fst r = fst (chart_outcome Rickshaw g obj) /\
   page (snd r) =
     (page st ++ [ClearGraph] ++ snd (chart_outcome Rickshaw g obj))%list) /\
  (widgets Rickshaw g = Normal tt -> rendering Rickshaw g = Normal tt ->
   fst r = Normal tt /\
   page (snd r) =
     (page st ++ [ClearGraph] ++ summary_events obj ++ [Render g])%list) /\
  (widgets Rickshaw g = Throw TypeError ->
   fst r = Throw TypeError /\ page (snd r) = (page st ++ [ClearGraph])%list) /\
  (widgets Rickshaw g = Normal tt -> rendering Rickshaw g = Throw TypeError ->
   fst r = Throw TypeError /\
   page (snd r) = (page st ++ [ClearGraph] ++ summary_events obj)%list).
Proof.
  intros Hs Hu Ha r g.
  assert (E : fst r = fst (chart_outcome Rickshaw g obj) /\
              page (snd r) =
                (page st ++ [ClearGraph] ++
                 snd (chart_outcome Rickshaw g obj))%list).
  { unfold r.
    rewrite (updateGraph_loaded Date_parse Rickshaw timestamp st a obj
               Hs Hu Ha).
    cbv zeta. fold g. cbn [fst snd]. split; [reflexivity|].
    rewrite log_events_app.
    cbn [page set_graph set_parsedResponse log_event set_array_length].
    rewrite <- !app_assoc. reflexivity. }
  destruct E as [E1 E2]. split; [split; assumption|].
  rewrite E1, E2. unfold chart_outcome.
  split; [|split].
  - intros Hw Hr. rewrite Hw, Hr. split; reflexivity.
  - intros Hw. rewrite Hw. rewrite app_nil_r. split; reflexivity.
  - intros Hw Hr. rewrite Hw, Hr. split; reflexivity.
Qed.

(** *** More about the prompt *)

(** X13.  An answer written in decimal digits with value [h],
    [0 < h < 2160], sets the sample count to exactly [6 * h]; when the
    store has that many samples, the chart shows the last [6 * h] of
    them. *)
Theorem customTimestamp_whole_hours (d : string) (st : State) :
  d <> "" -> all_digits d = true ->
  0 < MV_digits d < 2160 ->
  let st' := snd (customTimestamp Date_parse Rickshaw (Some d) st) in
  array_length st' = of_Z (6 * MV_digits d) /\
  (forall a : list Sample,
     temp_parsedResponse st = Some a ->
     temp_unpackData st = true ->
     array_like a ->
     6 * MV_digits d <= Z.of_nat (List.length a) ->
     let w := skipn (List.length a - Z.to_nat (6 * MV_digits d)) a in
     parsedResponse st' = Some w /\
     graph st' = Some (chart_series Date_parse w)).
Proof.
  intros Hne Hd Hh st'.
  assert (Hp : 2160 < 2 ^ prec) by reflexivity.
  assert (E : parseFloat d = of_Z (MV_digits d))
    by (apply parseFloat_digits; assumption).
  assert (H0 : lt (of_Z 0) (parseFloat d) = true)
    by (rewrite E; apply lt_of_Z; lia).
  assert (H1 : lt (parseFloat d) (of_Z 2160) = true)
    by (rewrite E; apply lt_of_Z; lia).
  assert (Em : mul (parseFloat d) (of_Z 6) = of_Z (6 * MV_digits d)).
  { rewrite E, mul_of_Z; [f_equal; lia | lia | unfold prec; lia | ].
    assert (2160 * 6 < 2 ^ prec) by reflexivity. lia. }
  unfold st'. rewrite (customTimestamp_accept Date_parse Rickshaw d st H0 H1).
  rewrite Em. split.
  - rewrite updateGraph_array_length. reflexivity.
  - intros a Hs Hu Ha Hl.
    set (st1 := set_array_length (of_Z (6 * MV_digits d))
                  (set_hours (parseFloat d) st)).
    pose proof (updateGraph_chart "last" st1 a Hs Hu) as Hc.
    cbv zeta in Hc.
    change (switch_timestamp "last" (array_length st1))
      with (of_Z (6 * MV_digits d)) in Hc.
    destruct (slice_window_within a (6 * MV_digits d) Ha ltac:(lia)) as [Ew _].
    rewrite Ew in Hc.
    unfold chart in Hc. injection Hc as Eg Ep. split; assumption.
Qed.

(** X15.  An answer of white space only is not the empty answer: it
    triggers the alert "Only use numbers!". *)
Theorem customTimestamp_white_space_only (ws : string) (st : State) :
  ws <> "" -> all_white_space ws = true ->
  customTimestamp Date_parse Rickshaw (Some ws) st =
    (Normal tt, log_event (Alert "Only use numbers!") (set_hours NaN st)).
Proof.
  intros Hne Hws. unfold customTimestamp. cbn [ToString].
  rewrite (parseFloat_white_only ws Hws). cbn [Number_isNaN NaN].
  destruct (String.eqb_spec ws "") as [E|_]; [congruence | reflexivity].
Qed.

(** X16.  White space before a non-empty answer is ignored. *)
Theorem customTimestamp_leading_white_space (ws s : string) (st : State) :
  all_white_space ws = true -> s <> "" ->
  customTimestamp Date_parse Rickshaw (Some (ws ++ s)%string) st =
  customTimestamp Date_parse Rickshaw (Some s) st.
Proof.
  intros Hws Hne. unfold customTimestamp. cbn [ToString].
  rewrite (parseFloat_white ws s Hws).
  destruct (String.eqb_spec s "") as [E|_]; [congruence|].
  destruct (String.eqb_spec (ws ++ s) "") as [E|_]; [|reflexivity].
  destruct ws; simpl in E; [congruence | discriminate].
Qed.

(** X17.  An answer whose first character is not white space, a digit, a
    sign, a dot or the letter I triggers the alert "Only use numbers!" and
    changes nothing else. *)
Theorem customTimestamp_not_numeric_head
    (c : ascii) (s : string) (st : State) :
  is_white_space c = false -> is_digit c = false ->
  c <> "+"%char -> c <> "-"%char -> c <> "."%char -> c <> "I"%char ->
  customTimestamp Date_parse Rickshaw (Some (String c s)) st =
    (Normal tt, log_event (Alert "Only use numbers!") (set_hours NaN st)).
Proof.
  intros Hw Hd Hp Hm Hdot Hi. unfold customTimestamp. cbn [ToString].
  rewrite (parseFloat_no_number c s Hw Hd Hp Hm Hdot Hi).
  reflexivity.
Qed.

(** X18.  An answer that starts (after white space) with a minus sign is
    never accepted: it ends in one of the two alerts, and the sample count
    stays. *)
Theorem customTimestamp_minus_sign (s t : string) (st : State) :
  TrimStart s = String "-" t ->
  let st1 := set_hours (parseFloat s) st in
  customTimestamp Date_parse Rickshaw (Some s) st =
    (Normal tt, log_event (Alert "Only use numbers!") st1) \/
  customTimestamp Date_parse Rickshaw (Some s) st =
    (Normal tt,
     log_event
       (Alert "Hours can't be less or equal to 0 or higher than 2160!") st1).
Proof.
  intros E st1. unfold customTimestamp. cbn [ToString].
  assert (Hne : s <> "") by (intros ->; discriminate E).
  destruct (parseFloat_minus s t E) as [Hn|Hl].
  - left. rewrite Hn.
    destruct (String.eqb_spec s "") as [E0|_]; [congruence | reflexivity].
  - right. rewrite (le_not_NaN_l _ _ Hl), Hl. reflexivity.
Qed.


(** X14.  An answer written in decimal digits is refused with the range
    alert when its value is [0] or at least [2160] (values below [2^53]):
    together with X13, whole hours are accepted from 1 to 2159 only. *)
Theorem customTimestamp_whole_hours_rejected (d : string) (st : State) :
  d <> "" -> all_digits d = true ->
  MV_digits d = 0 \/ 2160 <= MV_digits d < 2 ^ 53 ->
  customTimestamp Date_parse Rickshaw (Some d) st =
    (Normal tt,
     log_event
       (Alert "Hours can't be less or equal to 0 or higher than 2160!")
       (set_hours (of_Z (MV_digits d)) st)).
Proof.
  intros Hne Hd Hh.
  assert (E : parseFloat d = of_Z (MV_digits d))
    by (apply parseFloat_digits; assumption).
  assert (Hr : (le (of_Z (MV_digits d)) (of_Z 0)
                || ge (of_Z (MV_digits d)) (of_Z 2160))%bool = true).
  { destruct Hh as [H0|H1].
    - rewrite H0. reflexivity.
    - apply orb_true_iff. right. unfold ge.
      destruct (Z.eq_dec (MV_digits d) 2160) as [->|Hn]; [reflexivity|].
      apply (lt_le (of_Z 2160)). apply lt_of_Z; unfold prec; lia. }
  unfold customTimestamp. cbn [ToString]. rewrite E.
  assert (Hn : Number_isNaN (of_Z (MV_digits d)) = false).
  { apply orb_true_iff in Hr as [H|H];
      [exact (le_not_NaN_l _ _ H) | exact (ge_not_NaN_l _ _ H)]. }
  rewrite Hn, Hr. reflexivity.
Qed.

(** *** The first chart *)

(** X19.  The first chart: when the response has at least as many samples
    as the initial sample count [n] (1009, 4321 or 12961, by
    [options.timeframe]), the chart after [loadData] is built from the
    last [n] samples of the response. *)
Theorem initial_chart (options : Options) (a : list Sample) :
  array_like a ->
  let n :=
    if (timeframe options =? "Week")%string then 1009
    else if (timeframe options =? "Month")%string then 4321
    else 12961 in
  n <= Z.of_nat (List.length a) ->
  let st' :=
    snd (loadData Date_parse Rickshaw (Normal a) (script_start options)) in
  temp_parsedResponse st' = Some a /\
  graph st' =
    Some (chart_series Date_parse (skipn (List.length a - Z.to_nat n) a)).
Proof.
  intros Ha n Hn st'.
  destruct (loadData_chart a (script_start options)) as [Hg Hs].
  fold st' in Hg, Hs. unfold store in Hs. injection Hs as E1 _.
  split; [exact E1|]. rewrite Hg.
  assert (En : array_length (script_start options) = of_Z n).
  { cbn [array_length script_start]. unfold initial_array_length, n.
    destruct (timeframe options =? "Week")%string; [reflexivity|].
    destruct (timeframe options =? "Month")%string; reflexivity. }
  rewrite En.
  assert (H0 : 0 <= n).
  { unfold n. destruct (timeframe options =? "Week")%string; [lia|].
    destruct (timeframe options =? "Month")%string; lia. }
  destruct (slice_window_within a n Ha ltac:(lia)) as [Ew _].
  rewrite Ew. reflexivity.
Qed.

End PageFacts.

(** ** Closed instances of the further properties *)

(** The chart library of the examples completes on charts with points. *)
Lemma example_Rickshaw_completes : completes_on_points example_Rickshaw.
Proof.
  intros g H. unfold example_Rickshaw, widgets, rendering.
  rewrite H. split; reflexivity.
Qed.



Lemma loaded_page_never_throws_witness :
  let acts :=
    [Press "Day"; Answer (Some "24"); Answer None; Answer (Some "0");
     Press "Year"; Answer (Some "")] in
  let st := script_start (example_options "Week") in
  let st0 :=
    snd (loadData example_Date_parse example_Rickshaw
           (Normal (example_store 2 ++ [example_sample 2])%list) st) in
  array_like (example_store 2 ++ [example_sample 2])%list /\
  whole_count st /\
  forallb whole_action acts = true /\
  fst (perform_all example_Date_parse example_Rickshaw acts st0) =
    Normal tt /\
  temp_parsedResponse
    (snd (perform_all example_Date_parse example_Rickshaw acts st0)) =
    Some (example_store 2 ++ [example_sample 2])%list.
Proof.
  cbv zeta.
  assert (Ha : array_like (example_store 2 ++ [example_sample 2])%list)
    by (vm_compute; reflexivity).
  assert (Hw : whole_count (script_start (example_options "Week")))
    by (exists 1009; split; [lia | reflexivity]).
  split; [exact Ha|]. split; [exact Hw|]. split; [reflexivity|].
  apply (loaded_page_never_throws example_Date_parse example_Rickshaw
           (example_store 2) (example_sample 2)
           (script_start (example_options "Week"))
           [Press "Day"; Answer (Some "24"); Answer None; Answer (Some "0");
            Press "Year"; Answer (Some "")]
           example_Rickshaw_completes Ha Hw eq_refl).
Defined.

Lemma slice_window_suffix_witness :
  array_like (example_store 5) /\
  window_start (example_store 5) (of_Z 3) = 2%nat /\
  slice_window (example_store 5) (of_Z 3) = skipn 2 (example_store 5).
Proof.
  split; [vm_compute; reflexivity|]. split; [reflexivity|].
  apply (slice_window_suffix (example_store 5) (of_Z 3)).
  vm_compute. reflexivity.
Defined.

Lemma slice_window_size_witness :
  array_like (example_store 5) /\ 0 <= 7 < 2 ^ 53 /\
  Z.of_nat (List.length (slice_window (example_store 5) (of_Z 7))) = 2.
Proof.
  split; [vm_compute; reflexivity|]. split; [lia|].
  apply (slice_window_size (example_store 5) 7);
    [vm_compute; reflexivity | lia].
Defined.

Lemma unpackData_window_witness :
  array_like (example_store 5) /\
  unpackData example_Date_parse (slice_window (example_store 5) (of_Z 3))
    "humidity" =
  skipn 2 (unpackData example_Date_parse (example_store 5) "humidity").
Proof.
  split; [vm_compute; reflexivity|].
  apply (unpackData_window example_Date_parse (example_store 5) (of_Z 3)
           "humidity").
  vm_compute. reflexivity.
Defined.

Lemma updateGraph_window_within_witness :
  let st := example_loaded "Week" 200 in
  let st' := snd (updateGraph example_Date_parse example_Rickshaw "Day" st) in
  array_like (example_store 200) /\
  0 <= 145 <= Z.of_nat (List.length (example_store 200)) /\
  parsedResponse st' = Some (skipn 55 (example_store 200)) /\
  graph st' =
    Some (chart_series example_Date_parse (skipn 55 (example_store 200))).
Proof.
  cbv zeta. split; [vm_compute; reflexivity|].
  split; [vm_compute; split; discriminate|].
  destruct (updateGraph_window_within example_Date_parse example_Rickshaw
             "Day"
              (example_loaded "Week" 200) (example_store 200) 145)
    as (H1 & H2 & _).
  - vm_compute. reflexivity.
  - vm_compute. reflexivity.
  - vm_compute. reflexivity.
  - reflexivity.
  - vm_compute. split; discriminate.
  - split; [exact H1 | exact H2].
Defined.

Lemma updateGraph_last_again_witness :
  let st := example_loaded "Week" 3 in
  let st1 := snd (updateGraph example_Date_parse example_Rickshaw "Day" st) in
  let st2 := snd (updateGraph example_Date_parse example_Rickshaw "last" st1) in
  temp_parsedResponse st = Some (example_store 3) /\
  temp_unpackData st = true /\
  array_length st2 = array_length st1 /\
  graph st2 = graph st1 /\
  parsedResponse st2 = parsedResponse st1.
Proof.
  cbv zeta. split; [reflexivity|]. split; [reflexivity|].
  apply (updateGraph_last_again example_Date_parse example_Rickshaw
             "Day"
           (example_loaded "Week" 3) (example_store 3)); reflexivity.
Defined.

Lemma updateGraph_preset_forgets_witness :
  let st := example_loaded "Week" 3 in
  let st' :=
    snd (customTimestamp example_Date_parse example_Rickshaw (Some "24") st) in
  is_preset "Month" = true /\
  array_length st <> array_length st' /\
  graph (snd (updateGraph example_Date_parse example_Rickshaw "Month" st)) =
  graph (snd (updateGraph example_Date_parse example_Rickshaw "Month" st')).
Proof.
  cbv zeta. split; [reflexivity|]. split; [vm_compute; discriminate|].
  apply (updateGraph_preset_forgets example_Date_parse example_Rickshaw
             "Month"
           (example_loaded "Week" 3)
           (snd (customTimestamp example_Date_parse example_Rickshaw (Some "24")
                   (example_loaded "Week" 3)))
           (example_store 3)); reflexivity.
Defined.

Lemma updateGraph_trace_witness :
  let st := example_loaded "Week" 3 in
  let r := updateGraph example_Date_parse example_Rickshaw "Day" st in
  array_like (example_store 2 ++ [example_sample 2])%list /\
  fst r = Normal tt /\
  page (snd r) =
    (page st ++ [ClearGraph] ++ summary_events (example_sample 2) ++
     [Render (chart_series example_Date_parse (example_store 3))])%list.
Proof.
  cbv zeta. split; [vm_compute; reflexivity|].
  destruct (updateGraph_trace example_Date_parse example_Rickshaw "Day"
              (example_loaded "Week" 3) (example_store 2) (example_sample 2))
    as (_ & H & _).
  - reflexivity.
  - reflexivity.
  - vm_compute. reflexivity.
  - apply H; reflexivity.
Defined.

Lemma customTimestamp_whole_hours_witness :
  let st := example_loaded "Week" 10 in
  let st' :=
    snd (customTimestamp example_Date_parse example_Rickshaw (Some "1") st) in
  all_digits "1" = true /\ 0 < MV_digits "1" < 2160 /\
  array_length st' = of_Z 6 /\
  parsedResponse st' = Some (skipn 4 (example_store 10)).
Proof.
  cbv zeta. split; [reflexivity|]. split; [vm_compute; split; reflexivity|].
  destruct (customTimestamp_whole_hours example_Date_parse example_Rickshaw
             "1"
              (example_loaded "Week" 10)) as (H1 & H2).
  - discriminate.
  - reflexivity.
  - vm_compute. split; reflexivity.
  - split; [exact H1|].
    apply (H2 (example_store 10)).
    + reflexivity.
    + reflexivity.
    + vm_compute. reflexivity.
    + vm_compute. discriminate.
Defined.

Lemma customTimestamp_whole_hours_rejected_witness :
  all_digits "2160" = true /\ 2160 <= MV_digits "2160" < 2 ^ 53 /\
  customTimestamp example_Date_parse example_Rickshaw (Some "2160")
    (example_loaded "Week" 3) =
    (Normal tt,
     log_event
       (Alert "Hours can't be less or equal to 0 or higher than 2160!")
       (set_hours (of_Z 2160) (example_loaded "Week" 3))).
Proof.
  split; [reflexivity|].
  split; [vm_compute; split; [discriminate|reflexivity]|].
  apply (customTimestamp_whole_hours_rejected example_Date_parse
           example_Rickshaw
             "2160"
           (example_loaded "Week" 3)).
  - discriminate.
  - reflexivity.
  - right. vm_compute. split; [discriminate|reflexivity].
Defined.

Lemma customTimestamp_white_space_only_witness :
  all_white_space "  " = true /\
  customTimestamp example_Date_parse example_Rickshaw (Some "  ")
    (example_loaded "Week" 3) =
    (Normal tt,
     log_event (Alert "Only use numbers!")
       (set_hours NaN (example_loaded "Week" 3))).
Proof.
  split; [reflexivity|].
  apply (customTimestamp_white_space_only example_Date_parse example_Rickshaw
             "  "
           (example_loaded "Week" 3)).
  - discriminate.
  - reflexivity.
Defined.

Lemma customTimestamp_leading_white_space_witness :
  all_white_space " " = true /\
  customTimestamp example_Date_parse example_Rickshaw (Some " 24")
    (example_loaded "Week" 3) =
  customTimestamp example_Date_parse example_Rickshaw (Some "24") (example_loaded "Week" 3).
Proof.
  split; [reflexivity|].
  apply (customTimestamp_leading_white_space example_Date_parse example_Rickshaw
             " " "24"
           (example_loaded "Week" 3)).
  - reflexivity.
  - discriminate.
Defined.

Lemma customTimestamp_minus_sign_witness :
  TrimStart " -5" = "-5" /\
  customTimestamp example_Date_parse example_Rickshaw (Some " -5")
    (example_loaded "Week" 3) =
    (Normal tt,
     log_event
       (Alert "Hours can't be less or equal to 0 or higher than 2160!")
       (set_hours (parseFloat " -5") (example_loaded "Week" 3))).
Proof.
  split; [reflexivity|].
  destruct (customTimestamp_minus_sign example_Date_parse example_Rickshaw
             " -5" "5"
              (example_loaded "Week" 3) eq_refl) as [H|H].
  - vm_compute in H. discriminate H.
  - exact H.
Defined.

Lemma initial_chart_witness :
  let a := example_store 1100 in
  let st' :=
    snd (loadData example_Date_parse example_Rickshaw (Normal a)
           (script_start (example_options "Week"))) in
  array_like a /\
  temp_parsedResponse st' = Some a /\
  graph st' = Some (chart_series example_Date_parse (skipn 91 a)).
Proof.
  cbv zeta. split; [vm_compute; reflexivity|].
  apply (initial_chart example_Date_parse example_Rickshaw
             (example_options "Week")
           (example_store 1100)).
  - vm_compute. reflexivity.
  - vm_compute. discriminate.
Defined.

Lemma customTimestamp_not_numeric_head_witness :
  is_white_space "a" = false /\ is_digit "a" = false /\
  customTimestamp example_Date_parse example_Rickshaw (Some "abc")
    (example_loaded "Week" 3) =
    (Normal tt,
     log_event (Alert "Only use numbers!")
       (set_hours NaN (example_loaded "Week" 3))).
Proof.
  split; [reflexivity|]. split; [reflexivity|].
  apply (customTimestamp_not_numeric_head example_Date_parse example_Rickshaw
             "a" "bc"
           (example_loaded "Week" 3));
    first [ reflexivity | discriminate ].
Defined.
